(** * claude_token_refresh.py: a shallow embedding and its verified properties

    The program is one class, [ClaudeTokenRefresher], whose [run] method
    locates a credential file, extracts the OAuth record, tests its expiry,
    posts one refresh request and merges the response back into the
    document, writing a backup file and then the primary file.

    Modelling choices, once and for all:
    - Python values that can come out of [json.load] are the inductive
      [json]; [None] is [JNull]; numbers are integers ([Z], unbounded as in
      Python); JSON floats are outside the model.
    - a Python [dict] is an association list in insertion order with
      first-match lookup and replace-in-place update, which is what
      [json.dump] observes.
    - strings are sequences of code points below 256.
    - exceptions are values: a computation returns [Ok v] or [Raise e], and
      the state reached before the exception is kept, as in Python.
    - the outside world (clock, file permissions, HTTP endpoint, the range
      accepted by [datetime.fromtimestamp]) is a record [Env].
    - console output is not modelled. *)

From Stdlib Require Import ZArith List String Ascii Bool Lia.
Import ListNotations.
Local Open Scope string_scope.
Local Open Scope Z_scope.

(* ===================================================================== *)
(** ** Python values *)
(* ===================================================================== *)

Module Py.

Inductive exn : Type :=
| TypeError | KeyError | AttributeError | ValueError | OSError | JSONDecodeError
| RuntimeError.

Inductive res (A : Type) : Type :=
| Ok (a : A)
| Raise (e : exn).
Arguments Ok {A} a.
Arguments Raise {A} e.

Definition rbind {A B} (m : res A) (k : A -> res B) : res B :=
  match m with
  | Ok a => k a
  | Raise e => Raise e
  end.

Notation "'let?' x ':=' m 'in' k" := (rbind m (fun x => k))
  (at level 10, x name, m at level 100, k at level 200).

#[warnings="-register-all"]
Inductive json : Type :=
| JNull
| JBool (b : bool)
| JInt (n : Z)
| JStr (s : string)
| JList (l : list json)
| JDict (d : list (string * json)).

Definition dict := list (string * json).

(** [d.get(k)] on the association list: first match. *)
Fixpoint dict_lookup (k : string) (d : dict) : option json :=
  match d with
  | [] => None
  | (k', v) :: r => if String.eqb k k' then Some v else dict_lookup k r
  end.

(** [d[k] = v]: replace in place when the key exists, append otherwise. *)
Fixpoint dict_set (k : string) (v : json) (d : dict) : dict :=
  match d with
  | [] => [(k, v)]
  | (k', v') :: r =>
      if String.eqb k k' then (k', v) :: r else (k', v') :: dict_set k v r
  end.

Definition dict_mem (k : string) (d : dict) : bool :=
  match dict_lookup k d with Some _ => true | None => false end.

(** [k in s] for two strings: substring test. *)
Fixpoint contains_sub (k s : string) : bool :=
  String.prefix k s ||
  match s with
  | EmptyString => false
  | String _ s' => contains_sub k s'
  end.

Definition is_str (k : string) (v : json) : bool :=
  match v with
  | JStr s => String.eqb k s
  | _ => false
  end.

(** [k in v] with [k] a string: key membership for a dict, element
    membership for a list, substring for a string, [TypeError] for the
    values that are not iterable. *)
Definition py_contains (k : string) (v : json) : res bool :=
  match v with
  | JDict d => Ok (dict_mem k d)
  | JList l => Ok (existsb (is_str k) l)
  | JStr s => Ok (contains_sub k s)
  | JNull | JBool _ | JInt _ => Raise TypeError
  end.

(** [v[k]] with [k] a string. *)
Definition py_getitem (v : json) (k : string) : res json :=
  match v with
  | JDict d =>
      match dict_lookup k d with
      | Some x => Ok x
      | None => Raise KeyError
      end
  | _ => Raise TypeError
  end.

(** [v[k] = x] with [k] a string. *)
Definition py_setitem (v : json) (k : string) (x : json) : res json :=
  match v with
  | JDict d => Ok (JDict (dict_set k x d))
  | _ => Raise TypeError
  end.

(** [d.get(k, default)] on a dict. *)
Definition dict_get (d : dict) (k : string) (default : json) : json :=
  match dict_lookup k d with
  | Some x => x
  | None => default
  end.

(** [v.get(k, default)]: only a dict has the method. *)
Definition py_get (v : json) (k : string) (default : json) : res json :=
  match v with
  | JDict d => Ok (dict_get d k default)
  | _ => Raise AttributeError
  end.

(** Truth value of an object, as [if v] and [not v] compute it. *)
Definition py_truthy (v : json) : bool :=
  match v with
  | JNull => false
  | JBool b => b
  | JInt n => negb (n =? 0)
  | JStr s => negb (String.eqb s EmptyString)
  | JList l => match l with [] => false | _ => true end
  | JDict d => match d with [] => false | _ => true end
  end.

(** An operand of integer arithmetic or comparison: [int], or [bool]
    (a subclass of [int]).  Every other JSON value makes [v > 0] and
    [int + v * 1000] raise [TypeError] (for a string or a list the product
    exists, the sum with an [int] does not). *)
Definition py_int (v : json) : res Z :=
  match v with
  | JInt n => Ok n
  | JBool b => Ok (if b then 1 else 0)
  | _ => Raise TypeError
  end.

(** [str.isspace] on the code points below 256. *)
Definition is_space (c : ascii) : bool :=
  let n := nat_of_ascii c in
  ((9 <=? n) && (n <=? 13) || (28 <=? n) && (n <=? 32) ||
   (n =? 133) || (n =? 160))%nat.

(** [s.split()]: maximal runs of non-whitespace, in order. [tok] is the
    run being read. *)
Fixpoint split_ws (tok s : string) : list string :=
  match s with
  | EmptyString => if String.eqb tok EmptyString then [] else [tok]
  | String c s' =>
      if is_space c then
        if String.eqb tok EmptyString then split_ws EmptyString s' else tok :: split_ws EmptyString s'
      else split_ws (tok ++ String c EmptyString) s'
  end.

Fixpoint has_space (s : string) : bool :=
  match s with
  | EmptyString => false
  | String c r => is_space c || has_space r
  end.

(** [v.split()]: only a string has the method. *)
Definition py_split (v : json) : res json :=
  match v with
  | JStr s => Ok (JList (map JStr (split_ws EmptyString s)))
  | _ => Raise AttributeError
  end.

End Py.
Import Py.

(* ===================================================================== *)
(** ** Paths ([pathlib]) *)
(* ===================================================================== *)

Module PathLib.

(** A path is its parent directory and its final component. *)
Record path : Type := mkPath { parent : string; name : string }.

Definition path_eqb (p q : path) : bool :=
  String.eqb (parent p) (parent q) && String.eqb (name p) (name q).

(** [dir / a / b] *)
Definition join_dir (dir a : string) : string := dir ++ "/" ++ a.

(** [s.rfind(c)], counting positions from [i]. *)
Fixpoint rfind (c : ascii) (s : string) (i : nat) : option nat :=
  match s with
  | EmptyString => None
  | String a s' =>
      match rfind c s' (S i) with
      | Some j => Some j
      | None => if Ascii.eqb a c then Some i else None
      end
  end.

(** [PurePath.suffix]: the last dot-separated part of the name, when the
    dot is neither the first nor the last character. *)
Definition suffix (p : path) : string :=
  let n := name p in
  match rfind "."%char n 0 with
  | Some i =>
      if ((0 <? i) && (i <? String.length n - 1))%nat
      then substring i (String.length n - i) n
      else EmptyString
  | None => EmptyString
  end.

(** [PurePath.with_suffix(new)], for a [new] that passes the validity
    checks of pathlib (the program only passes the literal
    ['.json.backup']). *)
Definition with_suffix (p : path) (new : string) : res path :=
  if String.eqb (name p) EmptyString then Raise ValueError
  else
    let old := suffix p in
    if String.eqb old EmptyString then Ok (mkPath (parent p) (name p ++ new))
    else
      Ok (mkPath (parent p)
            (substring 0 (String.length (name p) - String.length old) (name p)
             ++ new)).

End PathLib.
Import PathLib.

(* ===================================================================== *)
(** ** The outside world and the state of one run *)
(* ===================================================================== *)

Module World.

(** What a file holds: a JSON document ([json.dump] then [json.load] is
    taken to give the document back) or bytes that do not parse. *)
Inductive content : Type :=
| FJson (doc : json)
| FGarbage.

Inductive node : Type :=
| Dir
| File (c : content).

Definition fs := path -> option node.

Definition fs_put (p : path) (n : node) (f : fs) : fs :=
  fun q => if path_eqb q p then Some n else f q.

(** How [open(p, 'w')] followed by [json.dump] ends for a path. *)
Inductive write_outcome : Type :=
| WriteOk
| WriteFailOpen       (* [open] raises: nothing is touched *)
| WriteFailPartial.   (* [open] truncates, the dump raises midway *)

(** How [requests.post] ends: a status code with a body that parses as
    JSON or not, or a transport exception. *)
Inductive http_result : Type :=
| HttpStatus (code : Z) (body : option json)
| HttpTransportError.

Record Env : Type := mkEnv {
  base_dir : string;
  home_dir : string;
  (** whether [Path.home()] can determine the home directory; it raises
      [RuntimeError] when it cannot *)
  home_known : bool;
  (** the n-th reading of the wall clock, in epoch milliseconds *)
  clock : nat -> Z;
  (** whether [datetime.fromtimestamp] accepts the instant, given in
      milliseconds *)
  fromtimestamp_ok : Z -> bool;
  (** whether examining the path ([exists], [is_file]) is refused: pathlib
      lets [PermissionError] through, it only swallows the errors that
      mean the path is not there *)
  stat_denied : path -> bool;
  readable : path -> bool;
  writes : path -> write_outcome;
  (** the token endpoint, as a function of the posted refresh token *)
  http_post : json -> http_result
}.

Inductive event : Type :=
| EvHttpPost (refresh_token : json)
| EvWrite (p : path) (doc : json)
| EvWriteFail (p : path).

(** The refresher object ([config_file], [config_data]) together with the
    file system, the number of clock readings so far and the log of
    external actions, oldest first. *)
Record St : Type := mkSt {
  config_file : option path;
  config_data : json;
  files : fs;
  ticks : nat;
  trace : list event
}.

(** [ClaudeTokenRefresher.__init__] on a given file system. *)
Definition init (f : fs) : St :=
  mkSt None JNull f 0%nat [].

Definition M (A : Type) : Type := St -> res A * St.

Definition ret {A} (a : A) : M A := fun st => (Ok a, st).

Definition raise {A} (e : exn) : M A := fun st => (Raise e, st).

Definition bind {A B} (m : M A) (k : A -> M B) : M B :=
  fun st =>
    match m st with
    | (Ok a, st') => k a st'
    | (Raise e, st') => (Raise e, st')
    end.

Definition lift {A} (r : res A) : M A := fun st => (r, st).

(** [try: m / except Exception: h] *)
Definition try_except {A} (m : M A) (h : exn -> M A) : M A :=
  fun st =>
    match m st with
    | (Ok a, st') => (Ok a, st')
    | (Raise e, st') => h e st'
    end.

Notation "x <- m ;; k" := (bind m (fun x => k))
  (at level 61, m at next level, right associativity).
Notation "m ;;; k" := (bind m (fun _ => k))
  (at level 61, right associativity).

Definition get_config_data : M json := fun st => (Ok (config_data st), st).

Definition with_data (d : json) (st : St) : St :=
  mkSt (config_file st) d (files st) (ticks st) (trace st).

Definition put_config_data (d : json) : M unit :=
  fun st => (Ok tt, with_data d st).

Definition get_config_file : M (option path) :=
  fun st => (Ok (config_file st), st).

Definition put_config_file (p : option path) : M unit :=
  fun st => (Ok tt, mkSt p (config_data st) (files st) (ticks st) (trace st)).

Definition get_files : M fs := fun st => (Ok (files st), st).

Definition log (e : event) (st : St) : St :=
  mkSt (config_file st) (config_data st) (files st) (ticks st)
       (trace st ++ [e]).

Definition set_file (p : path) (n : node) (st : St) : St :=
  mkSt (config_file st) (config_data st) (fs_put p n (files st)) (ticks st)
       (trace st).

Definition tick (st : St) : St :=
  mkSt (config_file st) (config_data st) (files st) (S (ticks st)) (trace st).

Section Effects.
Variable E : Env.

(** One reading of the clock: [int(time.time() * 1000)]. *)
Definition read_clock : M Z :=
  fun st => (Ok (clock E (ticks st)), tick st).

(** [datetime.fromtimestamp(ms / 1000)]; only its failure matters. *)
Definition fromtimestamp (ms : Z) : M unit :=
  if fromtimestamp_ok E ms then ret tt else raise ValueError.

(** [with open(p, 'r') as f: json.load(f)] *)
Definition read_json (p : path) : M json :=
  fun st =>
    if readable E p then
      match files st p with
      | Some (File (FJson d)) => (Ok d, st)
      | Some (File FGarbage) => (Raise JSONDecodeError, st)
      | Some Dir | None => (Raise OSError, st)
      end
    else (Raise OSError, st).

(** [with open(p, 'w') as f: json.dump(doc, f, indent=2)] *)
Definition write_json (p : path) (doc : json) : M unit :=
  fun st =>
    match files st p with
    | Some Dir => (Raise OSError, log (EvWriteFail p) st)
    | _ =>
        match writes E p with
        | WriteOk => (Ok tt, log (EvWrite p doc) (set_file p (File (FJson doc)) st))
        | WriteFailOpen => (Raise OSError, log (EvWriteFail p) st)
        | WriteFailPartial =>
            (Raise OSError, log (EvWriteFail p) (set_file p (File FGarbage) st))
        end
    end.

(** [requests.post(CLAUDE_TOKEN_URL, json=payload, ...)] *)
Definition post (refresh_token : json) : M http_result :=
  fun st => (Ok (http_post E refresh_token), log (EvHttpPost refresh_token) st).

End Effects.

Definition is_http (e : event) : bool :=
  match e with EvHttpPost _ => true | _ => false end.

Definition is_write (e : event) : bool :=
  match e with EvWrite _ _ | EvWriteFail _ => true | EvHttpPost _ => false end.

Definition is_write_fail_at (p : path) (e : event) : bool :=
  match e with EvWriteFail q => path_eqb q p | _ => false end.

Definition http_calls (t : list event) : nat := List.length (filter is_http t).

Definition file_writes (t : list event) : nat := List.length (filter is_write t).

End World.
Import World.

(* ===================================================================== *)
(** ** class ClaudeTokenRefresher *)
(* ===================================================================== *)

Module Refresher.

(** The key list of [get_oauth_config] and of [update_config] (the two
    methods spell out the same literal). *)
Definition oauth_keys : list string := ["claudeAiOauth"; "oauthAccount"; "oauth"].

(** [find_claude_config]: the four candidates, in search order. *)
Definition search_paths (E : Env) : list path :=
  [ mkPath (join_dir (base_dir E) ".claude") ".credentials.json";
    mkPath (base_dir E) ".claude.json";
    mkPath (join_dir (home_dir E) ".claude") ".credentials.json";
    mkPath (home_dir E) ".claude.json" ].

(** [path.exists() and path.is_file()] *)
Definition is_file (f : fs) (p : path) : bool :=
  match f p with
  | Some (File _) => true
  | _ => false
  end.

(** The loop of [find_claude_config]: the first path that is a regular
    file; examining a path can raise. *)
Fixpoint first_file (E : Env) (f : fs) (paths : list path)
    : res (option path) :=
  match paths with
  | [] => Ok None
  | p :: rest =>
      if stat_denied E p then Raise OSError
      else if is_file f p then Ok (Some p)
      else first_file E f rest
  end.

(** The list is built first, which calls [Path.home()]; then the loop. *)
Definition find_claude_config (E : Env) (f : fs) : res (option path) :=
  if home_known E then first_file E f (search_paths E)
  else Raise RuntimeError.

(** The loop of [get_oauth_config]: the first key of the document whose
    value contains ['refreshToken']. *)
Fixpoint probe (keys : list string) (cd : json) : res (option json) :=
  match keys with
  | [] => Ok None
  | key :: rest =>
      let? present := py_contains key cd in
      if present then
        let? oauth_config := py_getitem cd key in
        let? has := py_contains "refreshToken" oauth_config in
        if has then Ok (Some oauth_config) else probe rest cd
      else probe rest cd
  end.

Definition get_oauth_config (cd : json) : res (option json) :=
  if negb (py_truthy cd) then Ok None else probe oauth_keys cd.

(** The key at which the loop of [get_oauth_config] returns: [probe]
    with the key kept instead of the value. *)
Fixpoint probe_key (keys : list string) (cd : json) : res (option string) :=
  match keys with
  | [] => Ok None
  | key :: rest =>
      let? present := py_contains key cd in
      if present then
        let? oauth_config := py_getitem cd key in
        let? has := py_contains "refreshToken" oauth_config in
        if has then Ok (Some key) else probe_key rest cd
      else probe_key rest cd
  end.

Definition extracted_key (cd : json) : res (option string) :=
  if negb (py_truthy cd) then Ok None else probe_key oauth_keys cd.

(** The first loop of [update_config]: the first key present in the
    document. *)
Fixpoint first_key_in (keys : list string) (cd : json) : res (option string) :=
  match keys with
  | [] => Ok None
  | key :: rest =>
      let? present := py_contains key cd in
      if present then Ok (Some key) else first_key_in rest cd
  end.

(** [oauth_config[field] = v], where [oauth_config] is the object stored
    under [key] of [self.config_data]: the document sees the assignment. *)
Definition alias_setitem (key field : string) (v : json) : M unit :=
  cd <- get_config_data ;;
  oauth_config <- lift (py_getitem cd key) ;;
  oauth_config' <- lift (py_setitem oauth_config field v) ;;
  cd' <- lift (py_setitem cd key oauth_config') ;;
  put_config_data cd'.

Section Methods.
Variable E : Env.

Definition load_config : M bool :=
  f <- get_files ;;
  found <- lift (find_claude_config E f) ;;
  put_config_file found ;;;
  cf <- get_config_file ;;
  match cf with
  | None => ret false
  | Some p =>
      try_except
        (d <- read_json E p ;; put_config_data d ;;; ret true)
        (fun _ => ret false)
  end.

(** [is_token_expired]: one clock reading, strict comparison. *)
Definition is_token_expired (expires_at : Z) : M bool :=
  current_time <- read_clock E ;;
  ret (expires_at <? current_time).

Definition refresh_token (token : json) : M (option json) :=
  try_except
    (response <- post E token ;;
     match response with
     | HttpStatus code body =>
         if code =? 200 then
           match body with
           | Some d => ret (Some d)
           | None => raise JSONDecodeError
           end
         else ret None
     | HttpTransportError => raise OSError
     end)
    (fun _ => ret None).

(** The body of the [try] of [update_config] up to the backup: the
    in-place merge of the response into the document. *)
Definition merge (new_token_data : json) : M unit :=
  cd <- get_config_data ;;
  found <- lift (first_key_in oauth_keys cd) ;;
  oauth_key <-
    match found with
    | Some key => ret key
    | None =>
        cd0 <- lift (py_setitem cd "claudeAiOauth" (JDict [])) ;;
        put_config_data cd0 ;;;
        ret "claudeAiOauth"
    end ;;
  now <- read_clock E ;;
  expires_in <- lift (py_get new_token_data "expires_in" (JInt 3600)) ;;
  seconds <- lift (py_int expires_in) ;;
  let expires_at := now + seconds * 1000 in
  cd1 <- get_config_data ;;
  oauth_config <- lift (py_getitem cd1 oauth_key) ;;
  access <- lift (py_getitem new_token_data "access_token") ;;
  old_refresh <- lift (py_get oauth_config "refreshToken" JNull) ;;
  refresh <- lift (py_get new_token_data "refresh_token" old_refresh) ;;
  scope <- lift (py_get new_token_data "scope" JNull) ;;
  scopes <-
    (if py_truthy scope then
       s <- lift (py_get new_token_data "scope" (JStr EmptyString)) ;;
       lift (py_split s)
     else lift (py_get oauth_config "scopes" (JList []))) ;;
  alias_setitem oauth_key "accessToken" access ;;;
  alias_setitem oauth_key "refreshToken" refresh ;;;
  alias_setitem oauth_key "expiresAt" (JInt expires_at) ;;;
  alias_setitem oauth_key "scopes" scopes ;;;
  has_org <- lift (py_contains "organization" new_token_data) ;;
  (if has_org then
     org <- lift (py_getitem new_token_data "organization") ;;
     uuid <- lift (py_getitem org "uuid") ;;
     alias_setitem oauth_key "organizationUuid" uuid ;;;
     org' <- lift (py_getitem new_token_data "organization") ;;
     nm <- lift (py_getitem org' "name") ;;
     alias_setitem oauth_key "organizationName" nm
   else ret tt) ;;;
  has_account <- lift (py_contains "account" new_token_data) ;;
  (if has_account then
     acc <- lift (py_getitem new_token_data "account") ;;
     uuid <- lift (py_getitem acc "uuid") ;;
     alias_setitem oauth_key "accountUuid" uuid ;;;
     acc' <- lift (py_getitem new_token_data "account") ;;
     email <- lift (py_getitem acc' "email_address") ;;
     alias_setitem oauth_key "emailAddress" email
   else ret tt).

(** The rest of the [try]: backup file, then primary file, both holding
    [self.config_data] as it is at that point. *)
Definition persist : M unit :=
  cf <- get_config_file ;;
  match cf with
  | None => raise AttributeError
  | Some p =>
      backup_file <- lift (with_suffix p ".json.backup") ;;
      cd <- get_config_data ;;
      write_json E backup_file cd ;;;
      cd' <- get_config_data ;;
      write_json E p cd'
  end.

Definition update_config (new_token_data : json) : M bool :=
  try_except
    (merge new_token_data ;;; persist ;;; ret true)
    (fun _ => ret false).

(** The second half of [run], from [# Refresh token] on: one request,
    then the update, then the report of the new expiry. *)
Definition refresh_and_update (oauth_config : json) : M bool :=
  token <- lift (py_get oauth_config "refreshToken" JNull) ;;
  if negb (py_truthy token) then ret false else
  response <- refresh_token token ;;
  match response with
  | None => ret false
  | Some new_token_data =>
      if negb (py_truthy new_token_data) then ret false else
      updated <- update_config new_token_data ;;
      if updated then
        t <- read_clock E ;;
        expires_in <- lift (py_get new_token_data "expires_in" (JInt 3600)) ;;
        seconds <- lift (py_int expires_in) ;;
        fromtimestamp E ((Z.quot t 1000 + seconds) * 1000) ;;;
        ret true
      else ret false
  end.

(** [run]. The two conditional expressions on [expires_at > 0] are kept
    apart as in the source; [_now] is the reading of [datetime.now()] made
    for the report. *)
Definition run (force : bool) : M bool :=
  loaded <- load_config ;;
  if negb loaded then ret false else
  cd <- get_config_data ;;
  found <- lift (get_oauth_config cd) ;;
  match found with
  | None => ret false
  | Some oauth_config =>
      if negb (py_truthy oauth_config) then ret false else
      expires_at_v <- lift (py_get oauth_config "expiresAt" (JInt 0)) ;;
      expires_at <- lift (py_int expires_at_v) ;;
      (if 0 <? expires_at then fromtimestamp E expires_at else ret tt) ;;;
      is_expired <-
        (if 0 <? expires_at then is_token_expired expires_at else ret true) ;;
      _now <- read_clock E ;;
      if negb is_expired && negb force then ret true else
      refresh_and_update oauth_config
  end.

(** [main] after argument parsing: the exit status of the process. An
    exception that leaves [run] ends the interpreter with status 1. *)
Definition main (force : bool) (f : fs) : Z * St :=
  match run force (init f) with
  | (Ok true, st) => (0, st)
  | (Ok false, st) => (1, st)
  | (Raise _, st) => (1, st)
  end.

End Methods.

End Refresher.
Import Refresher.

(* ===================================================================== *)
(** ** Views of a document used to state the properties *)
(* ===================================================================== *)

(** The key [update_config] works on: the first key present, or the
    default it creates. *)
Definition resolved_key (cd : json) : string :=
  match first_key_in oauth_keys cd with
  | Ok (Some key) => key
  | _ => "claudeAiOauth"
  end.

(** A top-level entry of a document. *)
Definition top (cd : json) (k : string) : option json :=
  match cd with
  | JDict d => dict_lookup k d
  | _ => None
  end.

(** The object stored under a top-level key, empty when there is none. *)
Definition record (cd : json) (k : string) : dict :=
  match top cd k with
  | Some (JDict o) => o
  | _ => []
  end.

(** A field of the object stored under a top-level key. *)
Definition field (cd : json) (k f : string) : option json :=
  dict_lookup f (record cd k).

(** What is on disk at a path, when it is a JSON document. *)
Definition on_disk (f : fs) (p : path) : option json :=
  match f p with
  | Some (File (FJson d)) => Some d
  | _ => None
  end.

(** The fields [update_config] assigns whatever the response holds. *)
Definition always_touched : list string :=
  ["accessToken"; "refreshToken"; "expiresAt"; "scopes"].

Definition organization_fields : list string :=
  ["organizationUuid"; "organizationName"].

Definition account_fields : list string := ["accountUuid"; "emailAddress"].

Definition mem_str (s : string) (l : list string) : bool :=
  existsb (String.eqb s) l.

(** The two assignments [update_config] makes from a sub-object [src] of
    the response ([organization] or [account]): none when the response
    has no such key, both when it has. *)
Definition pair_assigned (r : dict) (src g1 g2 f1 f2 : string)
    (o o' : dict) : Prop :=
  match dict_lookup src r with
  | None => o' = o
  | Some sub =>
      exists a b,
        py_getitem sub g1 = Ok a /\ py_getitem sub g2 = Ok b /\
        o' = dict_set f2 b (dict_set f1 a o)
  end.

(** The value [update_config] computes for [scopes]. *)
Definition scopes_assigned (r o : dict) (scopes : json) : Prop :=
  if py_truthy (dict_get r "scope" JNull)
  then (exists s, dict_lookup "scope" r = Some (JStr s) /\
                  scopes = JList (map JStr (split_ws EmptyString s)))
  else (scopes = dict_get o "scopes" (JList [])).

(** The test [if new_token_data.get('scope')] of [update_config]. *)
Definition carries_scope (ntd : json) : bool :=
  match top ntd "scope" with
  | Some sc => py_truthy sc
  | None => false
  end.

(** Two states with the same file system, log and located file: what a
    computation that only works on the in-memory document preserves. *)
Definition same_io (st st' : St) : Prop :=
  files st' = files st /\ trace st' = trace st /\
  config_file st' = config_file st.

Definition keeps_io {A} (m : M A) : Prop :=
  forall st, same_io st (snd (m st)).

(** How a run that reached the token endpoint with token [tok] can end,
    for the located file [p], its backup path [b], the document [doc0]
    loaded from it and the file system [fs0] the run started from. In the
    last case the response [ntd] was merged into the loaded document
    before either file was written. *)
Inductive refreshed (E : Env) (fs0 : fs) (p b : path) (doc0 tok : json) :
    res bool -> St -> Prop :=
| HttpOnly st :
    trace st = [EvHttpPost tok] ->
    files st = fs0 ->
    refreshed E fs0 p b doc0 tok (Ok false) st
| BackupFailed st :
    trace st = [EvHttpPost tok; EvWriteFail b] ->
    files st p = fs0 p ->
    refreshed E fs0 p b doc0 tok (Ok false) st
| PrimaryFailed st doc :
    trace st = [EvHttpPost tok; EvWrite b doc; EvWriteFail p] ->
    refreshed E fs0 p b doc0 tok (Ok false) st
| Persisted r st ntd s s1 :
    http_post E tok = HttpStatus 200 (Some ntd) ->
    config_data s = doc0 ->
    merge E ntd s = (Ok tt, s1) ->
    trace st =
      [EvHttpPost tok; EvWrite b (config_data s1); EvWrite p (config_data s1)] ->
    files st =
      fs_put p (File (FJson (config_data s1)))
        (fs_put b (File (FJson (config_data s1))) fs0) ->
    config_data st = config_data s1 ->
    r = Ok true \/ (exists e, r = Raise e) ->
    refreshed E fs0 p b doc0 tok r st.

(** The file system on which [load_config] finds and parses [doc] at [p]. *)
Definition loads (E : Env) (fs0 : fs) (p : path) (doc : json) : Prop :=
  find_claude_config E fs0 = Ok (Some p) /\
  readable E p = true /\
  fs0 p = Some (File (FJson doc)).

(* ===================================================================== *)
(** ** Concrete worlds and documents *)
(* ===================================================================== *)

Module Scenario.

Definition creds : path := mkPath "/w/.claude" ".credentials.json".

Definition creds_backup : path := mkPath "/w/.claude" ".credentials.json.backup".

(** A file system holding one credential file. *)
Definition disk (doc : json) : fs :=
  fun q => if path_eqb q creds then Some (File (FJson doc)) else None.

(** A POSIX platform in UTC: [datetime] stops at the end of year 9999. *)
Definition utc_fromtimestamp_ok (ms : Z) : bool :=
  (0 <=? ms) && (ms <? 253402300800000).

Definition now0 : Z := 1700000000000.

Definition env (w : path -> write_outcome) (http : json -> http_result) : Env :=
  mkEnv "/w" "/home/u" true (fun n => now0 + Z.of_nat n) utc_fromtimestamp_ok
        (fun _ => false) (fun _ => true) w http.

Definition all_writable : path -> write_outcome := fun _ => WriteOk.

Definition answer (body : json) : json -> http_result :=
  fun _ => HttpStatus 200 (Some body).

(** The end-to-end scenario of the specification. *)
Definition doc_e2e : json :=
  JDict [("claudeAiOauth",
          JDict [("refreshToken", JStr "R1"); ("expiresAt", JInt 1000)])].

Definition response_e2e : json :=
  JDict [("access_token", JStr "A2"); ("expires_in", JInt 3600)].

Definition env_e2e : Env := env all_writable (answer response_e2e).

(** The state in which [update_config] runs for a loaded document. *)
Definition loaded_state (doc : json) : St :=
  mkSt (Some creds) doc (disk doc) 0 [].

Definition response_7200 : json :=
  JDict [("access_token", JStr "A2"); ("expires_in", JInt 7200)].

(** A record with scopes, and responses with and without a scope. *)
Definition doc_scoped : json :=
  JDict [("oauthAccount",
          JDict [("refreshToken", JStr "R1"); ("scopes", JList [JStr "a"])])].

Definition response_scope (s : string) : json :=
  JDict [("access_token", JStr "A2"); ("scope", JStr s)].

(** An earlier key without a refresh token, a later key with one. *)
Definition doc_two_keys : json :=
  JDict [("claudeAiOauth", JDict [("accessToken", JStr "A0")]);
         ("oauth", JDict [("refreshToken", JStr "R1"); ("expiresAt", JInt 1000)])].

Definition response_rotated : json :=
  JDict [("access_token", JStr "A2"); ("refresh_token", JStr "R2");
         ("expires_in", JInt 3600)].

(** A response with both sub-objects, and a record with other fields. *)
Definition doc_rich : json :=
  JDict [("numStartups", JInt 7);
         ("claudeAiOauth",
          JDict [("refreshToken", JStr "R1"); ("expiresAt", JInt 1000);
                 ("subscriptionType", JStr "pro")])].

Definition response_rich : json :=
  JDict [("access_token", JStr "A2");
         ("organization", JDict [("uuid", JStr "O1"); ("name", JStr "Org")]);
         ("account", JDict [("uuid", JStr "U1"); ("email_address", JStr "a@b.c")])].

(** Expiry exactly at the first clock reading; an empty refresh token;
    an expiry beyond year 9999; an expiry in the future. *)
Definition doc_expiring (e : Z) : json :=
  JDict [("claudeAiOauth",
          JDict [("refreshToken", JStr "R1"); ("expiresAt", JInt e)])].

Definition doc_empty_token : json :=
  JDict [("claudeAiOauth", JDict [("refreshToken", JStr EmptyString)])].

Definition far_future : Z := 1000000000000000000.

(** The backup path cannot be opened for writing. *)
Definition backup_unwritable : path -> write_outcome :=
  fun q => if path_eqb q creds_backup then WriteFailOpen else WriteOk.

End Scenario.

(** More worlds and documents: malformed files and records, endpoints
    that refuse, paths that cannot be written. *)
Module Cases.
Import Scenario.

Definition disk_garbage : fs :=
  fun q => if path_eqb q creds then Some (File FGarbage) else None.

Definition doc_no_token : json :=
  JDict [("claudeAiOauth", JDict [("accessToken", JStr "A0")]);
         ("numStartups", JInt 7)].

Definition doc_scalar : json :=
  JDict [("claudeAiOauth", JNull);
         ("oauth", JDict [("refreshToken", JStr "R1")])].

Definition doc_text_expiry : json :=
  JDict [("claudeAiOauth",
          JDict [("refreshToken", JStr "R1");
                 ("expiresAt", JStr "2025-01-01")])].

Definition doc_plain : json := JDict [("numStartups", JInt 7)].

Definition unauthorized : json -> http_result :=
  fun _ => HttpStatus 401 (Some (JDict [("error", JStr "invalid_grant")])).

Definition response_no_access : json := JDict [("expires_in", JInt 3600)].

Definition response_long_lived : json :=
  JDict [("access_token", JStr "A2"); ("expires_in", JInt 1000000000000000)].

Definition primary_unwritable : path -> write_outcome :=
  fun q => if path_eqb q creds then WriteFailOpen else WriteOk.

Definition notes : path := mkPath "/w" "notes.txt".

(** The first candidate may not be examined; the home directory is
    unknown. *)
Definition env_stat_denied : Env :=
  mkEnv "/w" "/home/u" true (fun n => now0 + Z.of_nat n) utc_fromtimestamp_ok
        (fun q => path_eqb q creds) (fun _ => true) all_writable
        (answer response_e2e).

Definition env_no_home : Env :=
  mkEnv "/w" "/home/u" false (fun n => now0 + Z.of_nat n) utc_fromtimestamp_ok
        (fun _ => false) (fun _ => true) all_writable (answer response_e2e).

End Cases.

(* ===================================================================== *)
(** ** Dictionaries *)
(* ===================================================================== *)

Section DictFacts.

Lemma dict_lookup_set_eq (k : string) (v : json) (d : dict) :
  dict_lookup k (dict_set k v d) = Some v.
Proof.
  induction d as [|[k' v'] r IH]; simpl.
  - now rewrite String.eqb_refl.
  - destruct (String.eqb k k') eqn:Hk; simpl; now rewrite Hk.
Qed.

Lemma dict_lookup_set_neq (k k' : string) (v : json) (d : dict) :
  k <> k' -> dict_lookup k' (dict_set k v d) = dict_lookup k' d.
Proof.
  intros Hne. induction d as [|[k0 v0] r IH]; simpl.
  - destruct (String.eqb_spec k' k); congruence.
  - destruct (String.eqb_spec k k0) as [->|Hk0]; simpl.
    + destruct (String.eqb_spec k' k0); congruence.
    + destruct (String.eqb_spec k' k0); congruence.
Qed.

(** Assigning twice to a key leaves the second value, at the place of
    the first. *)
Lemma dict_set_set (k : string) (v1 v2 : json) (d : dict) :
  dict_set k v2 (dict_set k v1 d) = dict_set k v2 d.
Proof.
  induction d as [|[k' v'] r IH]; simpl.
  - now rewrite String.eqb_refl.
  - destruct (String.eqb k k') eqn:Hk; simpl; rewrite Hk; congruence.
Qed.

(** Assigning the value a key already has changes nothing. *)
Lemma dict_set_same (k : string) (v : json) (d : dict) :
  dict_lookup k d = Some v -> dict_set k v d = d.
Proof.
  induction d as [|[k' v'] r IH]; simpl; [discriminate|].
  destruct (String.eqb k k') eqn:Hk; intros H.
  - congruence.
  - now rewrite IH.
Qed.

Lemma dict_mem_lookup (k : string) (d : dict) :
  dict_mem k d = true -> exists v, dict_lookup k d = Some v.
Proof.
  unfold dict_mem. destruct (dict_lookup k d) as [v|]; [eauto|discriminate].
Qed.

Lemma dict_mem_false (k : string) (d : dict) :
  dict_mem k d = false -> dict_lookup k d = None.
Proof.
  unfold dict_mem. destruct (dict_lookup k d); [discriminate|reflexivity].
Qed.

End DictFacts.

(* ===================================================================== *)
(** ** [str.split]: the tokens are non-empty and free of whitespace *)
(* ===================================================================== *)

Section SplitFacts.

Lemma has_space_app (a b : string) :
  has_space (a ++ b) = has_space a || has_space b.
Proof.
  induction a as [|c a IH]; simpl; [reflexivity|].
  now rewrite IH, orb_assoc.
Qed.

Lemma split_ws_tokens (s tok t : string) :
  has_space tok = false ->
  In t (split_ws tok s) ->
  t <> EmptyString /\ has_space t = false.
Proof.
  revert tok. induction s as [|c s IH]; intros tok Htok; simpl.
  - destruct (String.eqb_spec tok EmptyString) as [->|Hne]; [intros []|].
    intros [<-|[]]. auto.
  - destruct (is_space c) eqn:Hc.
    + destruct (String.eqb_spec tok EmptyString) as [->|Hne].
      * apply IH. reflexivity.
      * intros [<-|Hin]; [auto|]. now apply (IH EmptyString).
    + apply IH. rewrite has_space_app. simpl. now rewrite Htok, Hc.
Qed.

Lemma split_runs_of_spaces :
  split_ws EmptyString "  user:inference   user:profile " =
    ["user:inference"; "user:profile"].
Proof. reflexivity. Qed.

End SplitFacts.

(* ===================================================================== *)
(** ** Paths: the backup never is the primary file *)
(* ===================================================================== *)

Section PathFacts.

Lemma path_eqb_refl (p : path) : path_eqb p p = true.
Proof. unfold path_eqb. now rewrite !String.eqb_refl. Qed.

Lemma path_eqb_eq (p q : path) : path_eqb p q = true -> p = q.
Proof.
  destruct p as [a b], q as [c d]. unfold path_eqb; simpl.
  intros H. apply andb_true_iff in H as [H1 H2].
  apply String.eqb_eq in H1, H2. congruence.
Qed.

Lemma fs_put_same (p : path) (n : node) (f : fs) : fs_put p n f p = Some n.
Proof. unfold fs_put. now rewrite path_eqb_refl. Qed.

Lemma fs_put_other (p q : path) (n : node) (f : fs) :
  path_eqb q p = false -> fs_put p n f q = f q.
Proof. unfold fs_put. now intros ->. Qed.

(** Every candidate is a [.json] name, so the backup is the same path
    with [.backup] appended. *)
Lemma backup_of_candidate (E : Env) (p : path) :
  In p (search_paths E) ->
  with_suffix p ".json.backup" = Ok (mkPath (parent p) (name p ++ ".backup")).
Proof.
  unfold search_paths. simpl.
  intros [<-|[<-|[<-|[<-|[]]]]]; reflexivity.
Qed.

Lemma backup_differs (E : Env) (p b : path) :
  In p (search_paths E) ->
  with_suffix p ".json.backup" = Ok b ->
  path_eqb p b = false /\ path_eqb b p = false.
Proof.
  intros Hin Hb. rewrite (backup_of_candidate E p Hin) in Hb.
  injection Hb as <-.
  unfold search_paths in Hin. simpl in Hin.
  destruct Hin as [<-|[<-|[<-|[<-|[]]]]]; unfold path_eqb; simpl;
    rewrite andb_false_r; auto.
Qed.

Lemma find_claude_config_candidate (E : Env) (f : fs) (p : path) :
  find_claude_config E f = Ok (Some p) ->
  In p (search_paths E) /\ exists c, f p = Some (File c).
Proof.
  unfold find_claude_config. destruct (home_known E); [|discriminate].
  induction (search_paths E) as [|q rest IH]; simpl; [discriminate|].
  destruct (stat_denied E q); [discriminate|].
  destruct (is_file f q) eqn:Hq.
  - intros H. injection H as <-. split; [now left|].
    unfold is_file in Hq. destruct (f q) as [[|c]|]; try discriminate. eauto.
  - intros H. destruct (IH H) as [Hin Hf]. split; [now right|exact Hf].
Qed.

End PathFacts.

(* ===================================================================== *)
(** ** Stepping through the state monad *)
(* ===================================================================== *)

Section MonadFacts.

Lemma bind_ok_inv {A B} (m : M A) (k : A -> M B) (st st' : St) (b : B) :
  bind m k st = (Ok b, st') ->
  exists a st1, m st = (Ok a, st1) /\ k a st1 = (Ok b, st').
Proof.
  unfold bind. destruct (m st) as [[a|e] st1]; [eauto|discriminate].
Qed.

Lemma lift_ok_inv {A} (r : res A) (st st' : St) (a : A) :
  lift r st = (Ok a, st') -> r = Ok a /\ st' = st.
Proof. unfold lift. intros H. injection H as -> ->. auto. Qed.

End MonadFacts.

Ltac bind_inv H x Hx :=
  let s := fresh "s" in
  apply bind_ok_inv in H as (x & s & Hx & H).

Ltac lift_inv H := apply lift_ok_inv in H as [H ->].

Ltac prim_inv H :=
  unfold get_config_data, put_config_data, get_config_file, put_config_file,
         get_files, read_clock, ret in H;
  injection H as <- <-.

(* ===================================================================== *)
(** ** The merge of [update_config] *)
(* ===================================================================== *)

Section MergeFacts.
Variable E : Env.

Lemma alias_setitem_sub (k f : string) (v : json) (o d : dict) (st : St) :
  config_data st = JDict (dict_set k (JDict o) d) ->
  alias_setitem k f v st =
    (Ok tt, with_data (JDict (dict_set k (JDict (dict_set f v o)) d)) st).
Proof.
  intros Hcd. unfold alias_setitem, bind, get_config_data, lift, put_config_data.
  rewrite Hcd. simpl. rewrite dict_lookup_set_eq. simpl.
  now rewrite dict_set_set.
Qed.

Lemma first_key_in_some (keys : list string) (cd : json) (k : string) :
  first_key_in keys cd = Ok (Some k) -> py_contains k cd = Ok true.
Proof.
  induction keys as [|key rest IH]; simpl; [discriminate|].
  destruct (py_contains key cd) as [[|]|] eqn:Hc; simpl; try discriminate.
  - intros H. injection H as <-. exact Hc.
  - exact IH.
Qed.

Lemma first_key_in_none (keys : list string) (cd : json) (k : string) :
  first_key_in keys cd = Ok None -> In k keys -> py_contains k cd = Ok false.
Proof.
  induction keys as [|key rest IH]; simpl; [intros _ []|].
  destruct (py_contains key cd) as [[|]|] eqn:Hc; simpl; try discriminate.
  intros H [<-|Hin]; auto.
Qed.

(** After the key is resolved, the document is a dict whose entry under
    the key is a copy of the record the merge starts from. *)
Lemma resolve_inv (st s0 : St) (found : option string) (key : string) (oc : json) :
  first_key_in oauth_keys (config_data st) = Ok found ->
  match found with
  | Some key => ret key
  | None =>
      cd0 <- lift (py_setitem (config_data st) "claudeAiOauth" (JDict []));;
      put_config_data cd0;;; ret "claudeAiOauth"
  end st = (Ok key, s0) ->
  py_getitem (config_data s0) key = Ok oc ->
  exists d0,
    config_data st = JDict d0 /\
    key = resolved_key (config_data st) /\
    top (config_data s0) key = Some oc /\
    (forall o, oc = JDict o ->
       o = record (config_data st) key /\
       s0 = with_data (JDict (dict_set key oc d0)) st).
Proof.
  intros Hfound Hkey Hoc. unfold resolved_key. rewrite Hfound.
  destruct found as [k|].
  - prim_inv Hkey.
    destruct (config_data st) as [| | | | |d0] eqn:Hcd; try discriminate.
    simpl in Hoc. destruct (dict_lookup k d0) as [x|] eqn:Hl; [|discriminate].
    injection Hoc as ->. exists d0. split; [reflexivity|]. split; [reflexivity|].
    split; [exact Hl|]. intros o ->. split.
    + unfold record. simpl. now rewrite Hl.
    + rewrite (dict_set_same _ _ _ Hl). destruct st; unfold with_data; simpl in *; congruence.
  - bind_inv Hkey cd0 H0. lift_inv H0. bind_inv Hkey u H1. prim_inv H1. prim_inv Hkey.
    destruct (config_data st) as [| | | | |d0] eqn:Hcd; try discriminate.
    simpl in H0. injection H0 as <-. simpl in Hoc.
    rewrite dict_lookup_set_eq in Hoc. injection Hoc as <-.
    exists d0. split; [reflexivity|]. split; [reflexivity|].
    split; [simpl; apply dict_lookup_set_eq|]. intros o Ho. injection Ho as <-.
    split; [|reflexivity].
    pose proof (first_key_in_none _ _ "claudeAiOauth" Hfound) as Hn.
    simpl in Hn. specialize (Hn (or_introl eq_refl)).
    injection Hn as Hn. apply dict_mem_false in Hn.
    unfold record. simpl. now rewrite Hn.
Qed.

Ltac alias_step H :=
  let u := fresh "u" in
  let Hu := fresh "Hu" in
  bind_inv H u Hu;
  erewrite alias_setitem_sub in Hu by (simpl; reflexivity);
  injection Hu as _ <-.

Lemma pair_step (r : dict) (key src g1 g2 f1 f2 : string) (o d0 : dict)
    (s s' : St) :
  config_data s = JDict (dict_set key (JDict o) d0) ->
  (if dict_mem src r then
     x <- lift (py_getitem (JDict r) src) ;;
     a <- lift (py_getitem x g1) ;;
     alias_setitem key f1 a ;;;
     x' <- lift (py_getitem (JDict r) src) ;;
     b <- lift (py_getitem x' g2) ;;
     alias_setitem key f2 b
   else ret tt) s = (Ok tt, s') ->
  exists o',
    pair_assigned r src g1 g2 f1 f2 o o' /\
    s' = with_data (JDict (dict_set key (JDict o') d0)) s.
Proof.
  intros Hcd H. unfold pair_assigned.
  unfold dict_mem in H. destruct (dict_lookup src r) as [sub|] eqn:Hsrc.
  - bind_inv H x Hx. lift_inv Hx. simpl in Hx. rewrite Hsrc in Hx.
    injection Hx as <-.
    bind_inv H a Ha. lift_inv Ha.
    bind_inv H u Hu. rewrite (alias_setitem_sub _ _ _ _ _ _ Hcd) in Hu.
    injection Hu as _ <-.
    bind_inv H x' Hx'. lift_inv Hx'. simpl in Hx'. rewrite Hsrc in Hx'.
    injection Hx' as <-.
    bind_inv H b Hb. lift_inv Hb.
    erewrite alias_setitem_sub in H by (simpl; reflexivity).
    injection H as <-.
    exists (dict_set f2 b (dict_set f1 a o)). split; [eauto|reflexivity].
  - unfold ret in H. injection H as <-. exists o. split; [reflexivity|].
    destruct s; unfold with_data; simpl in *; congruence.
Qed.

Lemma merge_inv (ntd : json) (st st' : St) :
  merge E ntd st = (Ok tt, st') ->
  exists r d0 access seconds scopes o5 o6,
    ntd = JDict r /\ config_data st = JDict d0 /\
    let k := resolved_key (config_data st) in
    let o := record (config_data st) k in
    let o4 :=
      dict_set "scopes" scopes
        (dict_set "expiresAt" (JInt (clock E (ticks st) + seconds * 1000))
           (dict_set "refreshToken"
              (dict_get r "refresh_token" (dict_get o "refreshToken" JNull))
              (dict_set "accessToken" access o))) in
    dict_lookup "access_token" r = Some access /\
    py_int (dict_get r "expires_in" (JInt 3600)) = Ok seconds /\
    scopes_assigned r o scopes /\
    pair_assigned r "organization" "uuid" "name"
      "organizationUuid" "organizationName" o4 o5 /\
    pair_assigned r "account" "uuid" "email_address"
      "accountUuid" "emailAddress" o5 o6 /\
    st' = with_data (JDict (dict_set k (JDict o6) d0)) (tick st).
Proof.
  unfold merge. intros H.
  bind_inv H cd H0. prim_inv H0.
  bind_inv H found Hfound. lift_inv Hfound.
  bind_inv H key Hkey.
  bind_inv H now Hnow. prim_inv Hnow.
  bind_inv H expires_in Hei. lift_inv Hei.
  bind_inv H seconds Hsec. lift_inv Hsec.
  bind_inv H cd1 H1. prim_inv H1.
  bind_inv H oc Hoc. lift_inv Hoc.
  bind_inv H access Hacc. lift_inv Hacc.
  bind_inv H old_refresh Hold. lift_inv Hold.
  bind_inv H refresh Hrt. lift_inv Hrt.
  bind_inv H scope Hscope. lift_inv Hscope.
  bind_inv H scopes Hscopes.
  simpl in Hoc.
  destruct (resolve_inv _ _ _ _ _ Hfound Hkey Hoc) as (d0 & Hcd & -> & Htop & Hrec).
  destruct oc as [| | | | |o]; try discriminate.
  destruct (Hrec o eq_refl) as [Ho Hs0]. clear Hrec.
  destruct ntd as [| | | | |r]; try discriminate.
  simpl in Hei, Hacc, Hold, Hrt, Hscope.
  injection Hei as <-. injection Hold as <-. injection Hrt as <-.
  injection Hscope as <-.
  destruct (dict_lookup "access_token" r) as [a|] eqn:Ha; [|discriminate].
  injection Hacc as <-.
  set (k := resolved_key (config_data st)) in *.
  assert (Hsc : scopes_assigned r o scopes /\ s0 = tick s).
  { unfold scopes_assigned.
    destruct (py_truthy (dict_get r "scope" JNull)) eqn:Ht.
    - bind_inv Hscopes s' Hs'. lift_inv Hs'. lift_inv Hscopes.
      simpl in Hs'. injection Hs' as <-.
      unfold dict_get in *. destruct (dict_lookup "scope" r) as [x|]; [|discriminate].
      destruct x; try discriminate. simpl in Hscopes. injection Hscopes as <-.
      split; [eauto|reflexivity].
    - lift_inv Hscopes. simpl in Hscopes. injection Hscopes as <-. auto. }
  destruct Hsc as [Hsc ->]. clear Hscopes. subst s.
  alias_step H. alias_step H. alias_step H. alias_step H.
  bind_inv H has_org Horg. lift_inv Horg. simpl in Horg. injection Horg as <-.
  bind_inv H ub Hblock. destruct ub.
  match type of Hblock with
  | _ ?s = _ =>
      destruct (pair_step _ _ _ _ _ _ _ _ _ s _ eq_refl Hblock) as (o5 & Hp5 & ->)
  end.
  bind_inv H has_acc Hacc. lift_inv Hacc. simpl in Hacc. injection Hacc as <-.
  match type of H with
  | _ ?s = _ =>
      destruct (pair_step _ _ _ _ _ _ _ _ _ s _ eq_refl H) as (o6 & Hp6 & ->)
  end.
  exists r, d0, a, seconds, scopes, o5, o6.
  rewrite <- Ho. simpl.
  repeat (split; [first [reflexivity|assumption]|]).
  reflexivity.
Qed.

End MergeFacts.

Section FrameFacts.
Variable E : Env.

Lemma same_io_refl (st : St) : same_io st st.
Proof. unfold same_io. auto. Qed.

Lemma same_io_trans (a b c : St) : same_io a b -> same_io b c -> same_io a c.
Proof. unfold same_io. intros (?&?&?) (?&?&?). repeat split; congruence. Qed.

Lemma keeps_io_bind {A B} (m : M A) (k : A -> M B) :
  keeps_io m -> (forall a, keeps_io (k a)) -> keeps_io (bind m k).
Proof.
  intros Hm Hk st. unfold bind. specialize (Hm st).
  destruct (m st) as [[a|e] st1]; simpl in *; [|exact Hm].
  eapply same_io_trans; [exact Hm|apply Hk].
Qed.

Lemma keeps_io_lift {A} (r : res A) : keeps_io (lift r).
Proof. intros st. apply same_io_refl. Qed.

Lemma keeps_io_ret {A} (a : A) : keeps_io (ret a).
Proof. intros st. apply same_io_refl. Qed.

Lemma keeps_io_get_config_data : keeps_io get_config_data.
Proof. intros st. apply same_io_refl. Qed.

Lemma keeps_io_put_config_data (d : json) : keeps_io (put_config_data d).
Proof. intros st. unfold same_io. simpl. auto. Qed.

Lemma keeps_io_read_clock : keeps_io (read_clock E).
Proof. intros st. unfold same_io. simpl. auto. Qed.

Lemma keeps_io_alias_setitem (k f : string) (v : json) :
  keeps_io (alias_setitem k f v).
Proof.
  unfold alias_setitem.
  repeat first [ apply keeps_io_bind; [|intros ?]
               | apply keeps_io_lift
               | apply keeps_io_get_config_data
               | apply keeps_io_put_config_data ].
Qed.

Ltac keeps_io_tac :=
  repeat first [ apply keeps_io_bind; [|intros ?]
               | apply keeps_io_lift
               | apply keeps_io_ret
               | apply keeps_io_get_config_data
               | apply keeps_io_put_config_data
               | apply keeps_io_read_clock
               | apply keeps_io_alias_setitem
               | match goal with
                 | |- keeps_io (if ?b then _ else _) => destruct b
                 | |- keeps_io (match ?x with Some _ => _ | None => _ end) =>
                     destruct x
                 end ].

Lemma keeps_io_merge (ntd : json) : keeps_io (merge E ntd).
Proof. unfold merge. keeps_io_tac. Qed.
End FrameFacts.

(* ===================================================================== *)
(** ** Writing the files *)
(* ===================================================================== *)

Section UpdateFacts.
Variable E : Env.

(** A write either succeeds, or raises leaving every other file alone. *)
Lemma write_json_cases (p : path) (doc : json) (st : St) :
  write_json E p doc st =
    (Ok tt, log (EvWrite p doc) (set_file p (File (FJson doc)) st)) \/
  exists st',
    write_json E p doc st = (Raise OSError, st') /\
    trace st' = (trace st ++ [EvWriteFail p])%list /\
    config_file st' = config_file st /\
    config_data st' = config_data st /\
    forall q, path_eqb q p = false -> files st' q = files st q.
Proof.
  unfold write_json.
  destruct (files st p) as [[|c]|]; [right| |];
    try (destruct (writes E p); [left; reflexivity|right|right]);
    eexists; (split; [reflexivity|]); simpl; repeat split; auto;
    intros q Hq; unfold fs_put; now rewrite Hq.
Qed.

Lemma persist_cases (st : St) (p b : path) :
  config_file st = Some p ->
  with_suffix p ".json.backup" = Ok b ->
  path_eqb p b = false ->
  let doc := config_data st in
  persist E st =
    (Ok tt,
     log (EvWrite p doc) (set_file p (File (FJson doc))
       (log (EvWrite b doc) (set_file b (File (FJson doc)) st)))) \/
  (exists e st',
     persist E st = (Raise e, st') /\
     config_file st' = Some p /\
     trace st' = (trace st ++ [EvWriteFail b])%list /\
     files st' p = files st p) \/
  (exists e st',
     persist E st = (Raise e, st') /\
     config_file st' = Some p /\
     trace st' = (trace st ++ [EvWrite b doc; EvWriteFail p])%list).
Proof.
  intros Hcf Hb Hne doc.
  assert (Hp : persist E st =
               (write_json E b doc ;;;
                cd' <- get_config_data ;; write_json E p cd') st).
  { unfold persist, bind at 1, get_config_file. rewrite Hcf.
    unfold bind at 1, lift. rewrite Hb. reflexivity. }
  rewrite Hp. clear Hp. unfold bind.
  destruct (write_json_cases b doc st) as [Hw|(st1 & Hw & Ht & Hc & Hd & Hf)];
    rewrite Hw.
  2:{ right; left. exists OSError, st1.
      split; [reflexivity|]. split; [congruence|]. split; [exact Ht|].
      apply Hf, Hne. }
  unfold get_config_data. simpl config_data. fold doc.
  match goal with
  | |- context [write_json E p doc ?s] =>
      destruct (write_json_cases p doc s) as [Hw2|(st2 & Hw2 & Ht2 & Hc2 & Hd2 & Hf2)];
      rewrite Hw2
  end.
  - left. reflexivity.
  - right; right. exists OSError, st2. split; [reflexivity|].
    split; [simpl in Hc2; congruence|].
    rewrite Ht2. simpl. now rewrite <- app_assoc.
Qed.

Lemma update_config_cases (ntd : json) (st : St) (p b : path) :
  config_file st = Some p ->
  with_suffix p ".json.backup" = Ok b ->
  path_eqb p b = false ->
  exists r st',
    update_config E ntd st = (Ok r, st') /\
    config_file st' = Some p /\
    ((r = false /\ files st' = files st /\ trace st' = trace st) \/
     (r = false /\ trace st' = (trace st ++ [EvWriteFail b])%list /\
      files st' p = files st p) \/
     (r = false /\
      exists doc, trace st' = (trace st ++ [EvWrite b doc; EvWriteFail p])%list) \/
     (r = true /\
      exists st1,
        merge E ntd st = (Ok tt, st1) /\
        config_data st' = config_data st1 /\
        ticks st' = ticks st1 /\
        trace st' =
          (trace st ++ [EvWrite b (config_data st1); EvWrite p (config_data st1)])%list /\
        files st' =
          fs_put p (File (FJson (config_data st1)))
            (fs_put b (File (FJson (config_data st1))) (files st)))).
Proof.
  intros Hcf Hb Hne.
  unfold update_config, try_except.
  unfold bind at 1.
  pose proof (keeps_io_merge E ntd st) as (Hf & Ht & Hc).
  destruct (merge E ntd st) as [[[]|e] st1] eqn:Hm; simpl in Hf, Ht, Hc.
  2:{ exists false, st1. split; [reflexivity|]. split; [congruence|]. left. auto. }
  unfold bind at 1.
  assert (Hcf1 : config_file st1 = Some p) by congruence.
  destruct (persist_cases st1 p b Hcf1 Hb Hne)
    as [Hp|[(e & st2 & Hp & Hc2 & Ht2 & Hf2)|(e & st2 & Hp & Hc2 & Ht2)]];
    rewrite Hp.
  - eexists true, _. split; [reflexivity|]. split; [simpl; congruence|].
    right; right; right. split; [reflexivity|]. exists st1.
    split; [reflexivity|]. simpl. rewrite Ht, Hf, <- app_assoc. simpl. auto.
  - exists false, st2. split; [reflexivity|]. split; [exact Hc2|].
    right; left. repeat split; congruence.
  - exists false, st2. split; [reflexivity|]. split; [exact Hc2|].
    right; right; left. split; [reflexivity|]. eexists. rewrite Ht2, Ht. reflexivity.
Qed.

End UpdateFacts.

(* ===================================================================== *)
(** ** The run as a whole *)
(* ===================================================================== *)

Section ExtractionFacts.

(** [probe_key] is [probe] with the key kept: the value [probe] returns
    is the one stored under that key. *)
Lemma probe_key_probe (keys : list string) (cd : json) :
  probe keys cd =
    let? k := probe_key keys cd in
    match k with
    | None => Ok None
    | Some key => let? v := py_getitem cd key in Ok (Some v)
    end.
Proof.
  induction keys as [|key rest IH]; simpl; [reflexivity|].
  destruct (py_contains key cd) as [[|]|]; simpl; auto.
  destruct (py_getitem cd key) as [oc|] eqn:Hoc; simpl; auto.
  destruct (py_contains "refreshToken" oc) as [[|]|]; simpl; auto.
  now rewrite Hoc.
Qed.

Lemma extracted_key_sound (cd oc : json) :
  get_oauth_config cd = Ok (Some oc) ->
  exists k, extracted_key cd = Ok (Some k) /\ py_getitem cd k = Ok oc.
Proof.
  unfold get_oauth_config, extracted_key.
  destruct (negb (py_truthy cd)); [discriminate|].
  rewrite probe_key_probe.
  destruct (probe_key oauth_keys cd) as [[k|]|]; simpl; try discriminate.
  destruct (py_getitem cd k) as [v|] eqn:Hv; simpl; try discriminate.
  intros H. injection H as <-. exists k. split; [reflexivity|exact Hv].
Qed.

(** The key of [update_config] and the key of extraction differ only
    when the first key present holds a record without [refreshToken]. *)
Lemma keys_differ_only_without_token (keys : list string) (cd : json)
    (k : string) :
  probe_key keys cd = Ok (Some k) ->
  exists k',
    first_key_in keys cd = Ok (Some k') /\
    (k' = k \/
     exists oc, top cd k' = Some oc /\ py_contains "refreshToken" oc = Ok false).
Proof.
  induction keys as [|key rest IH]; simpl; [discriminate|].
  destruct (py_contains key cd) as [[|]|]; simpl; try discriminate; auto.
  destruct (py_getitem cd key) as [oc|] eqn:Hoc; simpl; try discriminate.
  destruct (py_contains "refreshToken" oc) as [[|]|] eqn:Hc; simpl;
    try discriminate.
  - intros H. injection H as <-. exists key. auto.
  - intros _. exists key. split; [reflexivity|]. right. exists oc.
    split; [|exact Hc].
    destruct cd as [| | | | |d]; try discriminate. simpl in *.
    destruct (dict_lookup key d); congruence.
Qed.

End ExtractionFacts.

Section RunFacts.
Variable E : Env.

Lemma refresh_token_spec (tok : json) (st : St) :
  exists r,
    refresh_token E tok st = (Ok r, log (EvHttpPost tok) st) /\
    forall ntd, r = Some ntd -> http_post E tok = HttpStatus 200 (Some ntd).
Proof.
  unfold refresh_token, try_except, bind, post, ret, raise.
  destruct (http_post E tok) as [code [d|]|]; simpl;
    try destruct (code =? 200) eqn:Hc; simpl;
    eexists; (split; [reflexivity|]); intros ntd Hn; try discriminate.
  injection Hn as ->. apply Z.eqb_eq in Hc. now subst.
Qed.

(** The report after a successful update reads the clock and may fail in
    [datetime.fromtimestamp]; it touches nothing else. *)
Lemma report_spec (ntd : json) (st : St) :
  exists r st',
    (t <- read_clock E ;;
     expires_in <- lift (py_get ntd "expires_in" (JInt 3600)) ;;
     seconds <- lift (py_int expires_in) ;;
     fromtimestamp E ((Z.quot t 1000 + seconds) * 1000) ;;;
     ret true) st = (r, st') /\
    trace st' = trace st /\ files st' = files st /\
    config_data st' = config_data st /\
    (r = Ok true \/ exists e, r = Raise e).
Proof.
  unfold bind, read_clock, lift, fromtimestamp, ret, raise.
  destruct (py_get ntd "expires_in" (JInt 3600)) as [x|e]; simpl.
  2:{ eexists _, _. split; [reflexivity|]. simpl. eauto 6. }
  destruct (py_int x) as [n|e]; simpl.
  2:{ eexists _, _. split; [reflexivity|]. simpl. eauto 6. }
  destruct (fromtimestamp_ok E _); simpl;
    eexists _, _; (split; [reflexivity|]); simpl; eauto 6.
Qed.

Lemma refresh_and_update_cases (oc : json) (st : St) (p b : path) (fs0 : fs)
    (r : res bool) (st' : St) :
  config_file st = Some p ->
  with_suffix p ".json.backup" = Ok b ->
  path_eqb p b = false ->
  trace st = [] ->
  files st = fs0 ->
  refresh_and_update E oc st = (r, st') ->
  match py_get oc "refreshToken" JNull with
  | Ok tok =>
      if py_truthy tok then refreshed E fs0 p b (config_data st) tok r st'
      else r = Ok false /\ st' = st
  | Raise e => r = Raise e /\ st' = st
  end.
Proof.
  intros Hcf Hb Hne Ht Hf. unfold refresh_and_update, bind at 1, lift at 1.
  destruct (py_get oc "refreshToken" JNull) as [tok|e].
  2:{ intros H. injection H as <- <-. auto. }
  destruct (py_truthy tok); simpl.
  2:{ intros H. injection H as <- <-. auto. }
  unfold bind at 1.
  destruct (refresh_token_spec tok st) as (resp & -> & Hresp).
  assert (Htr : trace (log (EvHttpPost tok) st) = [EvHttpPost tok]).
  { simpl. now rewrite Ht. }
  destruct resp as [ntd|].
  2:{ intros H. injection H as <- <-. now apply HttpOnly. }
  destruct (py_truthy ntd); simpl.
  2:{ intros H. injection H as <- <-. now apply HttpOnly. }
  unfold bind at 1.
  destruct (update_config_cases E ntd (log (EvHttpPost tok) st) p b Hcf Hb Hne)
    as (u & st1 & -> & Hcf1 & Hcases).
  destruct Hcases as [(-> & Hf1 & Ht1)|[(-> & Ht1 & Hf1)|[(-> & doc & Ht1)|(-> & st2 & Hm & Hd & Htk & Ht1 & Hf1)]]].
  - intros H. injection H as <- <-. apply HttpOnly; simpl in *; congruence.
  - intros H. injection H as <- <-. apply BackupFailed.
    + rewrite Ht1, Htr. reflexivity.
    + simpl in Hf1. congruence.
  - intros H. injection H as <- <-. apply PrimaryFailed with doc.
    rewrite Ht1, Htr. reflexivity.
  - intros H.
    destruct (report_spec ntd st1) as (r' & st'' & Hrep & Ht2 & Hf2 & Hd2 & Hr).
    rewrite Hrep in H. injection H as <- <-.
    apply Persisted with ntd (log (EvHttpPost tok) st) st2.
    + now apply Hresp.
    + reflexivity.
    + exact Hm.
    + rewrite Ht2, Ht1, Htr. reflexivity.
    + rewrite Hf2, Hf1. simpl. now rewrite Hf.
    + congruence.
    + exact Hr.
Qed.

Lemma load_config_loads (fs0 : fs) (p : path) (doc : json) :
  loads E fs0 p doc ->
  load_config E (init fs0) = (Ok true, mkSt (Some p) doc fs0 0 []).
Proof.
  intros (Hfind & Hread & Hfile).
  unfold load_config, bind, get_files, put_config_file, get_config_file,
    try_except, read_json, put_config_data, ret, with_data, init, lift. simpl.
  rewrite Hfind. simpl. rewrite Hread, Hfile. reflexivity.
Qed.

Lemma load_config_spec (fs0 : fs) :
  exists r st,
    load_config E (init fs0) = (r, st) /\
    trace st = [] /\ files st = fs0 /\ ticks st = 0%nat /\
    (r = Ok true ->
     exists p, loads E fs0 p (config_data st) /\ config_file st = Some p).
Proof.
  unfold load_config, bind, get_files, put_config_file, get_config_file,
    try_except, read_json, put_config_data, ret, with_data, init, loads, lift.
  simpl.
  destruct (find_claude_config E fs0) as [[p|]|e] eqn:Hfind; simpl.
  2:{ eexists _, _. split; [reflexivity|]. simpl. repeat split; auto.
      discriminate. }
  2:{ eexists _, _. split; [reflexivity|]. simpl. repeat split; auto.
      discriminate. }
  destruct (readable E p) eqn:Hread; simpl.
  2:{ eexists _, _. split; [reflexivity|]. simpl.
      repeat split; auto. discriminate. }
  destruct (fs0 p) as [[|[d|]]|] eqn:Hfile; simpl;
    eexists _, _; (split; [reflexivity|]); simpl;
    repeat split; auto; try discriminate.
  intros _. exists p. auto.
Qed.

Lemma probe_has_token (keys : list string) (cd oc : json) :
  probe keys cd = Ok (Some oc) -> py_contains "refreshToken" oc = Ok true.
Proof.
  induction keys as [|key rest IH]; simpl; [discriminate|].
  destruct (py_contains key cd) as [[|]|]; simpl; try discriminate; auto.
  destruct (py_getitem cd key) as [x|]; simpl; try discriminate.
  destruct (py_contains "refreshToken" x) as [[|]|] eqn:Hc; simpl;
    try discriminate; auto.
  intros H. injection H as <-. exact Hc.
Qed.

Lemma get_oauth_config_has_token (cd oc : json) :
  get_oauth_config cd = Ok (Some oc) ->
  py_contains "refreshToken" oc = Ok true.
Proof.
  unfold get_oauth_config. destruct (negb (py_truthy cd)); [discriminate|].
  apply probe_has_token.
Qed.

Lemma has_token_truthy (oc : json) :
  py_contains "refreshToken" oc = Ok true -> py_truthy oc = true.
Proof.
  destruct oc as [| | |s|l|d]; simpl; try discriminate.
  - destruct s; [discriminate|reflexivity].
  - destruct l; [discriminate|reflexivity].
  - destruct d; [discriminate|reflexivity].
Qed.

(** [run] on a file system whose credential file loads and holds an
    OAuth record: what is left is the expiry test. *)
Lemma run_loaded (force : bool) (fs0 : fs) (p : path) (doc : json) (o : dict) :
  loads E fs0 p doc ->
  get_oauth_config doc = Ok (Some (JDict o)) ->
  run E force (init fs0) =
    let st0 := mkSt (Some p) doc fs0 0 [] in
    match py_int (dict_get o "expiresAt" (JInt 0)) with
    | Raise e => (Raise e, st0)
    | Ok e =>
        if 0 <? e then
          if fromtimestamp_ok E e then
            if (e <? clock E 0) || force
            then refresh_and_update E (JDict o) (tick (tick st0))
            else (Ok true, tick (tick st0))
          else (Raise ValueError, st0)
        else refresh_and_update E (JDict o) (tick st0)
    end.
Proof.
  intros Hl Hg. unfold run. unfold bind at 1.
  rewrite (load_config_loads _ _ _ Hl). cbn [negb].
  unfold bind at 1, get_config_data at 1. cbn [config_data].
  unfold bind at 1, lift at 1. rewrite Hg.
  rewrite (has_token_truthy _ (get_oauth_config_has_token _ _ Hg)). cbn [negb].
  unfold bind at 1, lift at 1. cbn [py_get].
  unfold bind at 1, lift at 1.
  destruct (py_int (dict_get o "expiresAt" (JInt 0))) as [e|x]; [|reflexivity].
  destruct (0 <? e).
  - unfold bind at 1, fromtimestamp.
    destruct (fromtimestamp_ok E e); [|reflexivity].
    unfold ret at 1. unfold bind at 1. unfold is_token_expired, bind at 1, read_clock at 1.
    unfold ret at 1. unfold bind at 1, read_clock at 1. cbn [ticks].
    destruct (e <? clock E 0), force; reflexivity.
  - unfold bind at 1, ret at 1. unfold bind at 1, ret at 1.
    unfold bind at 1, read_clock at 1. reflexivity.
Qed.

(** Every run either leaves no trace at all, or reached the endpoint and
    ended in one of the four ways of [refreshed]. *)
Lemma run_cases (force : bool) (fs0 : fs) (r : res bool) (st' : St) :
  run E force (init fs0) = (r, st') ->
  (trace st' = [] /\ files st' = fs0) \/
  (exists p b doc0 tok,
     find_claude_config E fs0 = Ok (Some p) /\
     with_suffix p ".json.backup" = Ok b /\
     on_disk fs0 p = Some doc0 /\
     refreshed E fs0 p b doc0 tok r st').
Proof.
  unfold run, bind at 1.
  destruct (load_config_spec fs0) as (r0 & st0 & -> & Ht & Hf & Htk & Hok).
  destruct r0 as [[|]|e0]; cbn [negb].
  2:{ intros H. injection H as <- <-. left. auto. }
  2:{ intros H. injection H as <- <-. left. auto. }
  destruct (Hok eq_refl) as (p & (Hfind & _ & Hfile) & Hcf). clear Hok.
  destruct (find_claude_config_candidate _ _ _ Hfind) as [Hin _].
  pose proof (backup_of_candidate E p Hin) as Hb.
  destruct (backup_differs E p _ Hin Hb) as [Hne _].
  assert (Htail : forall oc st,
            trace st = [] -> files st = fs0 -> config_file st = Some p ->
            config_data st = config_data st0 ->
            refresh_and_update E oc st = (r, st') ->
            (trace st' = [] /\ files st' = fs0) \/
            (exists p b doc0 tok,
               find_claude_config E fs0 = Ok (Some p) /\
               with_suffix p ".json.backup" = Ok b /\
               on_disk fs0 p = Some doc0 /\
               refreshed E fs0 p b doc0 tok r st')).
  { intros oc st Ht' Hf' Hcf' Hcd' H.
    pose proof (refresh_and_update_cases oc st p _ fs0 r st' Hcf' Hb Hne Ht' Hf' H) as Hc.
    destruct (py_get oc "refreshToken" JNull) as [tok|e].
    - destruct (py_truthy tok).
      + right.
        exists p, (mkPath (parent p) (name p ++ ".backup")), (config_data st), tok.
        repeat split; auto. unfold on_disk. now rewrite Hfile, Hcd'.
      + destruct Hc as [_ ->]. left. auto.
    - destruct Hc as [_ ->]. left. auto. }
  unfold bind at 1, get_config_data at 1. unfold bind at 1, lift at 1.
  destruct (get_oauth_config (config_data st0)) as [[oc|]|e];
    try (intros H; injection H as <- <-; left; auto; fail).
  destruct (py_truthy oc); cbn [negb];
    try (intros H; injection H as <- <-; left; auto; fail).
  unfold bind at 1, lift at 1.
  destruct (py_get oc "expiresAt" (JInt 0)) as [v|e];
    try (intros H; injection H as <- <-; left; auto; fail).
  unfold bind at 1, lift at 1.
  destruct (py_int v) as [e|x];
    try (intros H; injection H as <- <-; left; auto; fail).
  destruct (0 <? e).
  - unfold bind at 1, fromtimestamp.
    destruct (fromtimestamp_ok E e);
      try (intros H; injection H as <- <-; left; auto; fail).
    unfold ret at 1. unfold bind at 1. unfold is_token_expired, bind at 1, read_clock at 1.
    unfold ret at 1. unfold bind at 1, read_clock at 1.
    destruct (negb (e <? clock E (ticks st0)) && negb force).
    + intros H. injection H as <- <-. left. auto.
    + apply Htail; auto.
  - unfold bind at 1, ret at 1. unfold bind at 1, ret at 1.
    unfold bind at 1, read_clock at 1. cbn [negb andb].
    apply Htail; auto.
Qed.

(** The run once the file is loaded and a record [oc] extracted, for any
    value [oc]. *)
Lemma run_extracted (force : bool) (fs0 : fs) (p : path) (doc oc : json) :
  loads E fs0 p doc ->
  get_oauth_config doc = Ok (Some oc) ->
  run E force (init fs0) =
    let st0 := mkSt (Some p) doc fs0 0 [] in
    match py_get oc "expiresAt" (JInt 0) with
    | Raise e => (Raise e, st0)
    | Ok v =>
        match py_int v with
        | Raise e => (Raise e, st0)
        | Ok e =>
            if 0 <? e then
              if fromtimestamp_ok E e then
                if (e <? clock E 0) || force
                then refresh_and_update E oc (tick (tick st0))
                else (Ok true, tick (tick st0))
              else (Raise ValueError, st0)
            else refresh_and_update E oc (tick st0)
        end
    end.
Proof.
  intros Hl Hg. unfold run. unfold bind at 1.
  rewrite (load_config_loads _ _ _ Hl). cbn [negb].
  unfold bind at 1, get_config_data at 1. cbn [config_data].
  unfold bind at 1, lift at 1. rewrite Hg.
  rewrite (has_token_truthy _ (get_oauth_config_has_token _ _ Hg)). cbn [negb].
  unfold bind at 1, lift at 1.
  destruct (py_get oc "expiresAt" (JInt 0)) as [v|x]; [|reflexivity].
  unfold bind at 1, lift at 1.
  destruct (py_int v) as [e|x]; [|reflexivity].
  destruct (0 <? e).
  - unfold bind at 1, fromtimestamp.
    destruct (fromtimestamp_ok E e); [|reflexivity].
    unfold ret at 1. unfold bind at 1. unfold is_token_expired, bind at 1, read_clock at 1.
    unfold ret at 1. unfold bind at 1, read_clock at 1. cbn [ticks].
    destruct (e <? clock E 0), force; reflexivity.
  - unfold bind at 1, ret at 1. unfold bind at 1, ret at 1.
    unfold bind at 1, read_clock at 1. reflexivity.
Qed.

End RunFacts.


(* ===================================================================== *)
(** ** What [update_config] persists *)
(* ===================================================================== *)

Section UpdateClaims.
Variable E : Env.

Lemma update_config_persisted (ntd : json) (st st' : St) :
  update_config E ntd st = (Ok true, st') ->
  exists p st1,
    config_file st = Some p /\
    merge E ntd st = (Ok tt, st1) /\
    on_disk (files st') p = Some (config_data st1).
Proof.
  unfold update_config, try_except. intros H.
  destruct ((merge E ntd;;; persist E;;; ret true) st) as [[u|e] s1] eqn:Hb;
    [|unfold ret in H; discriminate].
  injection H as -> ->.
  bind_inv Hb u Hm. destruct u. bind_inv Hb u Hp. destruct u.
  unfold ret in Hb. injection Hb as ->.
  pose proof (keeps_io_merge E ntd st) as (Hf & Ht & Hc).
  rewrite Hm in Hf, Ht, Hc. simpl in Hf, Ht, Hc.
  unfold persist in Hp. bind_inv Hp cf Hcf. prim_inv Hcf.
  destruct (config_file s) as [p|] eqn:Hcfs; [|discriminate].
  bind_inv Hp b Hb. lift_inv Hb.
  bind_inv Hp cd Hcd. prim_inv Hcd.
  bind_inv Hp u Hw1. destruct u.
  bind_inv Hp cd' Hcd'. prim_inv Hcd'.
  destruct (write_json_cases E b (config_data s) s) as [Hw|(x & Hw & _)];
    rewrite Hw in Hw1; [|discriminate].
  injection Hw1 as <-.
  match type of Hp with
  | write_json E p ?d ?s = _ =>
      destruct (write_json_cases E p d s) as [Hw2|(x & Hw2 & _)];
      rewrite Hw2 in Hp; [|discriminate]
  end.
  injection Hp as <-.
  exists p, s. split; [congruence|]. split; [exact Hm|].
  unfold on_disk, log, set_file. cbn [files]. now rewrite fs_put_same.
Qed.

Lemma field_after_merge (k f : string) (o d0 : dict) :
  field (JDict (dict_set k (JDict o) d0)) k f = dict_lookup f o.
Proof. unfold field, record, top. now rewrite dict_lookup_set_eq. Qed.


Lemma pair_assigned_frame (r : dict) (src g1 g2 f1 f2 : string) (o o' : dict)
    (f : string) :
  pair_assigned r src g1 g2 f1 f2 o o' ->
  f1 <> f -> f2 <> f ->
  dict_lookup f o' = dict_lookup f o.
Proof.
  unfold pair_assigned. intros H H1 H2.
  destruct (dict_lookup src r) as [sub|].
  - destruct H as (a & b & _ & _ & ->).
    now rewrite !dict_lookup_set_neq.
  - now subst.
Qed.

Lemma pair_assigned_absent (r : dict) (src g1 g2 f1 f2 : string) (o o' : dict) :
  pair_assigned r src g1 g2 f1 f2 o o' ->
  dict_lookup src r = None -> o' = o.
Proof. unfold pair_assigned. intros H Hn. now rewrite Hn in H. Qed.

Lemma pair_assigned_present (r : dict) (src g1 g2 f1 f2 : string) (o o' : dict)
    (sub : json) :
  pair_assigned r src g1 g2 f1 f2 o o' ->
  dict_lookup src r = Some sub ->
  f1 <> f2 ->
  exists a b,
    py_getitem sub g1 = Ok a /\ py_getitem sub g2 = Ok b /\
    dict_lookup f1 o' = Some a /\ dict_lookup f2 o' = Some b.
Proof.
  unfold pair_assigned. intros H Hs Hne. rewrite Hs in H.
  destruct H as (a & b & Ha & Hb & ->). exists a, b.
  repeat split; auto.
  - rewrite dict_lookup_set_neq by congruence. apply dict_lookup_set_eq.
  - apply dict_lookup_set_eq.
Qed.

(** What a successful [update_config] leaves on disk, field by field. *)
Lemma update_config_record (ntd : json) (st st' : St) :
  update_config E ntd st = (Ok true, st') ->
  exists p r d0 access seconds scopes o4 o5 o6,
    config_file st = Some p /\
    ntd = JDict r /\ config_data st = JDict d0 /\
    let k := resolved_key (config_data st) in
    let o := record (config_data st) k in
    on_disk (files st') p = Some (JDict (dict_set k (JDict o6) d0)) /\
    o4 =
      dict_set "scopes" scopes
        (dict_set "expiresAt" (JInt (clock E (ticks st) + seconds * 1000))
           (dict_set "refreshToken"
              (dict_get r "refresh_token" (dict_get o "refreshToken" JNull))
              (dict_set "accessToken" access o))) /\
    dict_lookup "access_token" r = Some access /\
    py_int (dict_get r "expires_in" (JInt 3600)) = Ok seconds /\
    scopes_assigned r o scopes /\
    pair_assigned r "organization" "uuid" "name"
      "organizationUuid" "organizationName" o4 o5 /\
    pair_assigned r "account" "uuid" "email_address"
      "accountUuid" "emailAddress" o5 o6.
Proof.
  intros H.
  destruct (update_config_persisted _ _ _ H) as (p & st1 & Hcf & Hm & Hd).
  destruct (merge_inv E _ _ _ Hm)
    as (r & d0 & access & seconds & scopes & o5 & o6 & -> & Hcd & Ha & Hs & Hsc & H5 & H6 & ->).
  exists p, r, d0, access, seconds, scopes. eexists. exists o5, o6.
  cbv zeta. simpl in Hd.
  repeat (split; [first [eassumption|reflexivity]|]). exact H6.
Qed.



(** C7. The persisted [expiresAt] is the clock reading taken by the merge
    plus [expires_in] times 1000, with [expires_in] 3600 when the response
    omits it. *)
Theorem expires_at_computed (ntd : json) (st st' : St) (n : Z) :
  update_config E ntd st = (Ok true, st') ->
  py_get ntd "expires_in" (JInt 3600) = Ok (JInt n) ->
  let k := resolved_key (config_data st) in
  exists p doc',
    config_file st = Some p /\
    on_disk (files st') p = Some doc' /\
    field doc' k "expiresAt" = Some (JInt (clock E (ticks st) + n * 1000)).
Proof.
  intros H Hn k.
  destruct (update_config_record _ _ _ H)
    as (p & r & d0 & access & seconds & scopes & o4 & o5 & o6 &
        Hcf & -> & Hcd & Hd & -> & Ha & Hs & Hsc & H5 & H6).
  fold k in Hd, H5, Hsc. simpl in Hn. injection Hn as Hn. rewrite Hn in Hs.
  simpl in Hs. injection Hs as <-.
  exists p, (JDict (dict_set k (JDict o6) d0)).
  split; [exact Hcf|]. split; [exact Hd|].
  rewrite field_after_merge.
  rewrite (pair_assigned_frame _ _ _ _ _ _ _ _ "expiresAt" H6) by discriminate.
  rewrite (pair_assigned_frame _ _ _ _ _ _ _ _ "expiresAt" H5) by discriminate.
  rewrite !dict_lookup_set_neq by discriminate.
  apply dict_lookup_set_eq.
Qed.


(** C4, amended. The persisted [scopes] is the response's scope string
    split on whitespace when that string is present and not empty;
    otherwise it is the stored [scopes] when the record has one, and the
    empty list when it has none. *)
Theorem scopes_computed (ntd : json) (st st' : St) :
  update_config E ntd st = (Ok true, st') ->
  let k := resolved_key (config_data st) in
  exists p doc',
    config_file st = Some p /\
    on_disk (files st') p = Some doc' /\
    (carries_scope ntd = true ->
     exists s, top ntd "scope" = Some (JStr s) /\ s <> EmptyString /\
       field doc' k "scopes" = Some (JList (map JStr (split_ws EmptyString s)))) /\
    (carries_scope ntd = false ->
     (forall v, field (config_data st) k "scopes" = Some v ->
                field doc' k "scopes" = Some v) /\
     (field (config_data st) k "scopes" = None ->
      field doc' k "scopes" = Some (JList []))).
Proof.
  intros H k.
  destruct (update_config_record _ _ _ H)
    as (p & r & d0 & access & seconds & scopes & o4 & o5 & o6 &
        Hcf & -> & Hcd & Hd & -> & Ha & Hs & Hsc & H5 & H6).
  fold k in Hd, H5, Hsc.
  exists p, (JDict (dict_set k (JDict o6) d0)).
  split; [exact Hcf|]. split; [exact Hd|].
  assert (Hl : field (JDict (dict_set k (JDict o6) d0)) k "scopes" = Some scopes).
  { rewrite field_after_merge.
    rewrite (pair_assigned_frame _ _ _ _ _ _ _ _ "scopes" H6) by discriminate.
    rewrite (pair_assigned_frame _ _ _ _ _ _ _ _ "scopes" H5) by discriminate.
    apply dict_lookup_set_eq. }
  rewrite Hl. unfold scopes_assigned in Hsc.
  unfold carries_scope, top. unfold dict_get in Hsc at 1.
  destruct (dict_lookup "scope" r) as [sc|] eqn:Hscope.
  - destruct (py_truthy sc) eqn:Ht; split; try discriminate; intros _.
    + destruct Hsc as (s & Hs' & ->). injection Hs' as ->.
      exists s. repeat split; auto. intros ->. discriminate.
    + subst scopes. unfold field, dict_get. split; [now intros v ->|now intros ->].
  - simpl in Hsc. split; [discriminate|]. intros _.
    subst scopes. unfold field, dict_get. split; [now intros v ->|now intros ->].
Qed.

(** C9, amended. The persisted document agrees with the original on
    every top-level key but the resolved one and on every field of the
    record that the merge does not assign; the assigned fields hold the
    values [update_config] computes: the response's [access_token]; its
    [refresh_token] or else the stored one ([null] when there is none);
    the merge-time clock plus the lifetime; the scopes of
    [scopes_assigned] (empty list when neither side has any); and the
    organization and account fields of the response when it has them. *)
Theorem merge_frame (ntd : json) (st st' : St) :
  update_config E ntd st = (Ok true, st') ->
  let doc := config_data st in
  let k := resolved_key doc in
  exists p doc' r,
    config_file st = Some p /\
    on_disk (files st') p = Some doc' /\
    ntd = JDict r /\
    (forall k', k' <> k -> top doc' k' = top doc k') /\
    (forall f,
       mem_str f always_touched = false ->
       (dict_mem "organization" r = true ->
        mem_str f organization_fields = false) ->
       (dict_mem "account" r = true -> mem_str f account_fields = false) ->
       field doc' k f = field doc k f) /\
    field doc' k "accessToken" = dict_lookup "access_token" r /\
    field doc' k "refreshToken" =
      Some (dict_get r "refresh_token" (dict_get (record doc k) "refreshToken" JNull)) /\
    (exists seconds,
       py_int (dict_get r "expires_in" (JInt 3600)) = Ok seconds /\
       field doc' k "expiresAt" =
         Some (JInt (clock E (ticks st) + seconds * 1000))) /\
    (exists scopes,
       scopes_assigned r (record doc k) scopes /\
       field doc' k "scopes" = Some scopes) /\
    (forall org, dict_lookup "organization" r = Some org ->
       exists u n,
         py_getitem org "uuid" = Ok u /\ py_getitem org "name" = Ok n /\
         field doc' k "organizationUuid" = Some u /\
         field doc' k "organizationName" = Some n) /\
    (forall acc, dict_lookup "account" r = Some acc ->
       exists u m,
         py_getitem acc "uuid" = Ok u /\ py_getitem acc "email_address" = Ok m /\
         field doc' k "accountUuid" = Some u /\
         field doc' k "emailAddress" = Some m).
Proof.
  intros H doc k.
  destruct (update_config_record _ _ _ H)
    as (p & r & d0 & access & seconds & scopes & o4 & o5 & o6 &
        Hcf & -> & Hcd & Hd & Ho4 & Ha & Hs & Hsc & H5 & H6).
  fold doc in Hcd, Hd, H5, Hsc. fold k in Hd, H5, Hsc.
  exists p, (JDict (dict_set k (JDict o6) d0)), r.
  split; [exact Hcf|]. split; [exact Hd|]. split; [reflexivity|].
  split.
  { intros k' Hk'. rewrite Hcd. simpl. now apply dict_lookup_set_neq. }
  split.
  { intros f Hf Horg Hacc. rewrite field_after_merge.
    unfold always_touched, mem_str in Hf. simpl in Hf.
    rewrite !orb_false_r in Hf. 
    apply orb_false_iff in Hf as [Hf1 Hf]. apply orb_false_iff in Hf as [Hf2 Hf].
    apply orb_false_iff in Hf as [Hf3 Hf4].
    apply String.eqb_neq in Hf1, Hf2, Hf3, Hf4.
    assert (H54 : dict_lookup f o5 = dict_lookup f o4).
    { destruct (dict_lookup "organization" r) as [org|] eqn:Ho.
      - unfold dict_mem in Horg. rewrite Ho in Horg. specialize (Horg eq_refl).
        unfold organization_fields, mem_str in Horg. simpl in Horg.
        rewrite orb_false_r in Horg. apply orb_false_iff in Horg as [G1 G2].
        apply String.eqb_neq in G1, G2.
        apply (pair_assigned_frame _ _ _ _ _ _ _ _ f H5); congruence.
      - now rewrite (pair_assigned_absent _ _ _ _ _ _ _ _ H5 Ho). }
    assert (H65 : dict_lookup f o6 = dict_lookup f o5).
    { destruct (dict_lookup "account" r) as [acc|] eqn:Ho.
      - unfold dict_mem in Hacc. rewrite Ho in Hacc. specialize (Hacc eq_refl).
        unfold account_fields, mem_str in Hacc. simpl in Hacc.
        rewrite orb_false_r in Hacc. apply orb_false_iff in Hacc as [G1 G2].
        apply String.eqb_neq in G1, G2.
        apply (pair_assigned_frame _ _ _ _ _ _ _ _ f H6); congruence.
      - now rewrite (pair_assigned_absent _ _ _ _ _ _ _ _ H6 Ho). }
    rewrite H65, H54. subst o4.
    rewrite !dict_lookup_set_neq by congruence. reflexivity. }
  split.
  { rewrite field_after_merge.
    rewrite (pair_assigned_frame _ _ _ _ _ _ _ _ "accessToken" H6) by discriminate.
    rewrite (pair_assigned_frame _ _ _ _ _ _ _ _ "accessToken" H5) by discriminate.
    subst o4. rewrite !dict_lookup_set_neq by discriminate.
    now rewrite dict_lookup_set_eq. }
  split.
  { rewrite field_after_merge.
    rewrite (pair_assigned_frame _ _ _ _ _ _ _ _ "refreshToken" H6) by discriminate.
    rewrite (pair_assigned_frame _ _ _ _ _ _ _ _ "refreshToken" H5) by discriminate.
    subst o4. rewrite !dict_lookup_set_neq by discriminate.
    now rewrite dict_lookup_set_eq. }
  split.
  { exists seconds. split; [exact Hs|]. rewrite field_after_merge.
    rewrite (pair_assigned_frame _ _ _ _ _ _ _ _ "expiresAt" H6) by discriminate.
    rewrite (pair_assigned_frame _ _ _ _ _ _ _ _ "expiresAt" H5) by discriminate.
    subst o4. rewrite !dict_lookup_set_neq by discriminate.
    now rewrite dict_lookup_set_eq. }
  split.
  { exists scopes. split; [exact Hsc|]. rewrite field_after_merge.
    rewrite (pair_assigned_frame _ _ _ _ _ _ _ _ "scopes" H6) by discriminate.
    rewrite (pair_assigned_frame _ _ _ _ _ _ _ _ "scopes" H5) by discriminate.
    subst o4. now rewrite dict_lookup_set_eq. }
  split.
  { intros org Ho.
    destruct (pair_assigned_present _ _ _ _ _ _ _ _ _ H5 Ho) as (u & n & Hu & Hn & Lu & Ln);
      [discriminate|].
    exists u, n. rewrite !field_after_merge.
    rewrite !(pair_assigned_frame _ _ _ _ _ _ _ _ _ H6) by discriminate. auto. }
  { intros acc Ho.
    destruct (pair_assigned_present _ _ _ _ _ _ _ _ _ H6 Ho) as (u & m & Hu & Hm & Lu & Lm);
      [discriminate|].
    exists u, m. rewrite !field_after_merge. auto. }
Qed.

End UpdateClaims.

Import Scenario.

Section UpdateWitnesses.



Lemma expires_at_computed_witness :
  exists p doc',
    config_file (loaded_state doc_e2e) = Some p /\
    on_disk (files (snd (update_config env_e2e response_7200 (loaded_state doc_e2e)))) p
      = Some doc' /\
    field doc' "claudeAiOauth" "expiresAt" = Some (JInt (now0 + 7200 * 1000)).
Proof.
  apply (expires_at_computed env_e2e response_7200 (loaded_state doc_e2e)
           (snd (update_config env_e2e response_7200 (loaded_state doc_e2e)))
           7200);
    reflexivity.
Defined.

Lemma scopes_computed_witness :
  exists p doc',
    config_file (loaded_state doc_scoped) = Some p /\
    on_disk (files (snd (update_config env_e2e (response_scope "user:inference  user:profile")
                           (loaded_state doc_scoped)))) p = Some doc' /\
    (carries_scope (response_scope "user:inference  user:profile") = true ->
     exists s, top (response_scope "user:inference  user:profile") "scope" = Some (JStr s) /\
       s <> EmptyString /\
       field doc' "oauthAccount" "scopes" =
         Some (JList (map JStr (split_ws EmptyString s)))) /\
    (carries_scope (response_scope "user:inference  user:profile") = false ->
     (forall v, field doc_scoped "oauthAccount" "scopes" = Some v ->
                field doc' "oauthAccount" "scopes" = Some v) /\
     (field doc_scoped "oauthAccount" "scopes" = None ->
      field doc' "oauthAccount" "scopes" = Some (JList []))).
Proof.
  apply (scopes_computed env_e2e (response_scope "user:inference  user:profile")
           (loaded_state doc_scoped)
           (snd (update_config env_e2e (response_scope "user:inference  user:profile")
                   (loaded_state doc_scoped))));
    reflexivity.
Defined.

(** C4 as stated fails twice: a record without [scopes] and a response
    without [scope] give a persisted [scopes] of [[]], not an absent
    field; and an empty scope string leaves the stored scopes in place
    instead of replacing them by its (empty) split. *)
Lemma scopes_counterexample :
  (fst (update_config env_e2e response_e2e (loaded_state doc_e2e)) = Ok true /\
   top response_e2e "scope" = None /\
   field doc_e2e "claudeAiOauth" "scopes" = None /\
   exists doc',
     on_disk (files (snd (update_config env_e2e response_e2e (loaded_state doc_e2e))))
       creds = Some doc' /\
     field doc' "claudeAiOauth" "scopes" = Some (JList []) /\
     field doc' "claudeAiOauth" "scopes" <> field doc_e2e "claudeAiOauth" "scopes") /\
  (fst (update_config env_e2e (response_scope EmptyString) (loaded_state doc_scoped))
     = Ok true /\
   top (response_scope EmptyString) "scope" = Some (JStr EmptyString) /\
   exists doc',
     on_disk (files (snd (update_config env_e2e (response_scope EmptyString)
                            (loaded_state doc_scoped)))) creds = Some doc' /\
     field doc' "oauthAccount" "scopes" = Some (JList [JStr "a"]) /\
     field doc' "oauthAccount" "scopes" <>
       Some (JList (map JStr (split_ws EmptyString EmptyString)))).
Proof.
  split.
  - repeat split; try reflexivity.
    eexists. repeat split; try reflexivity. discriminate.
  - repeat split; try reflexivity.
    eexists. repeat split; try reflexivity. discriminate.
Qed.

Lemma merge_frame_witness :
  exists p doc',
    on_disk (files (snd (update_config env_e2e response_rich (loaded_state doc_rich)))) p
      = Some doc' /\
    top doc' "numStartups" = Some (JInt 7) /\
    field doc' "claudeAiOauth" "subscriptionType" = Some (JStr "pro") /\
    field doc' "claudeAiOauth" "accessToken" = Some (JStr "A2") /\
    field doc' "claudeAiOauth" "refreshToken" = Some (JStr "R1") /\
    field doc' "claudeAiOauth" "organizationName" = Some (JStr "Org") /\
    field doc' "claudeAiOauth" "emailAddress" = Some (JStr "a@b.c").
Proof.
  destruct (merge_frame env_e2e response_rich (loaded_state doc_rich)
              (snd (update_config env_e2e response_rich (loaded_state doc_rich)))
              eq_refl)
    as (p & doc' & r & Hcf & Hd & Hr & Htop & Hfr & Ha & Hrt & _ & _ & Horg & Hacc).
  injection Hr as <-.
  exists p, doc'. split; [exact Hd|].
  split; [rewrite Htop by discriminate; reflexivity|].
  split; [rewrite Hfr by reflexivity; reflexivity|].
  split; [exact Ha|]. split; [exact Hrt|].
  destruct (Horg _ eq_refl) as (u & n & _ & Hn & _ & Ln).
  destruct (Hacc _ eq_refl) as (u' & m & _ & Hm & _ & Lm).
  simpl in Hn, Hm. injection Hn as <-. injection Hm as <-. auto.
Defined.

(** C9 as stated fails on the assigned fields. Section 4.6 keeps an
    absent [scopes] absent when the response has no [scope]: the code
    writes an empty list. It keeps an absent [refreshToken] absent when the
    response has no [refresh_token]: the code writes [null]. It splits a
    scope string that is present: the code keeps the stored scopes when
    the string is empty. *)
Lemma merge_frame_counterexample :
  (fst (update_config env_e2e response_rich (loaded_state doc_rich)) = Ok true /\
   top response_rich "scope" = None /\
   field doc_rich "claudeAiOauth" "scopes" = None /\
   exists doc',
     on_disk (files (snd (update_config env_e2e response_rich (loaded_state doc_rich))))
       creds = Some doc' /\
     field doc' "claudeAiOauth" "scopes" = Some (JList [])) /\
  (fst (update_config env_e2e response_e2e (loaded_state doc_two_keys)) = Ok true /\
   top response_e2e "refresh_token" = None /\
   resolved_key doc_two_keys = "claudeAiOauth" /\
   field doc_two_keys "claudeAiOauth" "refreshToken" = None /\
   exists doc',
     on_disk (files (snd (update_config env_e2e response_e2e (loaded_state doc_two_keys))))
       creds = Some doc' /\
     field doc' "claudeAiOauth" "refreshToken" = Some JNull) /\
  (fst (update_config env_e2e (response_scope EmptyString) (loaded_state doc_scoped))
     = Ok true /\
   top (response_scope EmptyString) "scope" = Some (JStr EmptyString) /\
   split_ws EmptyString EmptyString = [] /\
   exists doc',
     on_disk (files (snd (update_config env_e2e (response_scope EmptyString)
                            (loaded_state doc_scoped)))) creds = Some doc' /\
     field doc' "oauthAccount" "scopes" = Some (JList [JStr "a"])).
Proof.
  split; [|split]; repeat split; try reflexivity; eexists; split; reflexivity.
Qed.

End UpdateWitnesses.

(* ===================================================================== *)
(** ** The state in which a run reaches the refresh *)
(* ===================================================================== *)

Section RunSuccess.
Variable E : Env.

(** A run that does anything reaches [refresh_and_update] in the state
    left by loading, after one clock reading (no positive [expiresAt]) or
    two. *)
Lemma run_pinned (force : bool) (fs0 : fs) (r : res bool) (st' : St) :
  run E force (init fs0) = (r, st') ->
  (trace st' = [] /\ files st' = fs0) \/
  (exists p doc0 oc n,
     loads E fs0 p doc0 /\
     get_oauth_config doc0 = Ok (Some oc) /\
     (n = 1 \/ n = 2)%nat /\
     refresh_and_update E oc (mkSt (Some p) doc0 fs0 n []) = (r, st')).
Proof.
  intros Hrun.
  destruct (load_config_spec E fs0) as (r0 & st0 & Hload & Ht & Hf & Htk & Hok).
  destruct r0 as [[|]|e0].
  - destruct (Hok eq_refl) as (p & Hl & Hcf). clear Hok.
    destruct st0 as [cf doc0 fl tk tr]. simpl in Ht, Hf, Htk, Hcf, Hl.
    subst cf fl tk tr.
    destruct (get_oauth_config doc0) as [[oc|]|e] eqn:Hg.
    + rewrite (run_extracted E force fs0 p _ oc Hl Hg) in Hrun.
      cbv zeta in Hrun.
      destruct (py_get oc "expiresAt" (JInt 0)) as [v|x];
        [|injection Hrun as <- <-; left; auto].
      destruct (py_int v) as [e|x];
        [|injection Hrun as <- <-; left; auto].
      destruct (0 <? e).
      * destruct (fromtimestamp_ok E e);
          [|injection Hrun as <- <-; left; auto].
        destruct ((e <? clock E 0) || force).
        -- right. exists p, doc0, oc, 2%nat.
           split; [exact Hl|]. split; [exact Hg|]. split; [now right|exact Hrun].
        -- injection Hrun as <- <-. left. auto.
      * right. exists p, doc0, oc, 1%nat.
        split; [exact Hl|]. split; [exact Hg|]. split; [now left|exact Hrun].
    + unfold run in Hrun. unfold bind at 1 in Hrun. rewrite Hload in Hrun.
      cbn [negb] in Hrun.
      unfold bind at 1, get_config_data at 1 in Hrun. cbn [config_data] in Hrun.
      unfold bind at 1, lift at 1 in Hrun. rewrite Hg in Hrun.
      injection Hrun as <- <-. left. auto.
    + unfold run in Hrun. unfold bind at 1 in Hrun. rewrite Hload in Hrun.
      cbn [negb] in Hrun.
      unfold bind at 1, get_config_data at 1 in Hrun. cbn [config_data] in Hrun.
      unfold bind at 1, lift at 1 in Hrun. rewrite Hg in Hrun.
      injection Hrun as <- <-. left. auto.
  - unfold run in Hrun. unfold bind at 1 in Hrun. rewrite Hload in Hrun.
    injection Hrun as <- <-. left. auto.
  - unfold run in Hrun. unfold bind at 1 in Hrun. rewrite Hload in Hrun.
    injection Hrun as <- <-. left. auto.
Qed.

(** What [refresh_and_update] did when it returns [True]: the stored
    token was posted, the endpoint answered 200 with [ntd], [ntd] was
    merged in the state reached after the post, both files were written
    from the merged document, and the report read the clock once. *)
Lemma refresh_and_update_success (oc : json) (st st' : St) (p b : path) :
  config_file st = Some p ->
  with_suffix p ".json.backup" = Ok b ->
  path_eqb p b = false ->
  refresh_and_update E oc st = (Ok true, st') ->
  exists tok ntd s1,
    py_get oc "refreshToken" JNull = Ok tok /\
    py_truthy tok = true /\
    http_post E tok = HttpStatus 200 (Some ntd) /\
    merge E ntd (log (EvHttpPost tok) st) = (Ok tt, s1) /\
    config_data st' = config_data s1 /\
    ticks st' = S (ticks s1) /\
    trace st' =
      (trace st ++ [EvHttpPost tok; EvWrite b (config_data s1);
                    EvWrite p (config_data s1)])%list /\
    files st' =
      fs_put p (File (FJson (config_data s1)))
        (fs_put b (File (FJson (config_data s1))) (files st)).
Proof.
  intros Hcf Hb Hne H. unfold refresh_and_update in H.
  bind_inv H tok Htok. lift_inv Htok.
  destruct (py_truthy tok) eqn:Htruthy; cbn [negb] in H; [|discriminate H].
  bind_inv H resp Hresp.
  destruct (refresh_token_spec E tok st) as (resp' & Hr & Hcode).
  rewrite Hr in Hresp. injection Hresp as <- <-.
  destruct resp' as [ntd|]; [|discriminate H].
  destruct (py_truthy ntd); cbn [negb] in H; [|discriminate H].
  bind_inv H u Hu. destruct u; [|discriminate H].
  bind_inv H t Ht. prim_inv Ht.
  bind_inv H ei Hei. lift_inv Hei.
  bind_inv H secs Hs. lift_inv Hs.
  bind_inv H uu Hft. unfold fromtimestamp in Hft.
  destruct (fromtimestamp_ok E _); [|discriminate Hft].
  unfold ret in Hft, H. injection Hft as _ <-. injection H as <-.
  destruct (update_config_cases E ntd (log (EvHttpPost tok) st) p b Hcf Hb Hne)
    as (u & s2 & Hu' & _ & Hcases).
  rewrite Hu in Hu'. injection Hu' as <- <-.
  destruct Hcases as [(Hc & _)|[(Hc & _)|[(Hc & _)|(_ & s1 & Hm & Hd & Htk & Htr & Hf)]]];
    try discriminate Hc.
  exists tok, ntd, s1. split; [exact Htok|]. split; [exact Htruthy|].
  split; [now apply Hcode|]. split; [exact Hm|].
  simpl. rewrite Hd, Htk, Htr, Hf. simpl. rewrite <- app_assoc. auto.
Qed.

End RunSuccess.

(* ===================================================================== *)
(** ** Properties of whole runs *)
(* ===================================================================== *)

Section RunClaims.
Variable E : Env.

Lemma main_run (force : bool) (fs0 : fs) :
  exists r st',
    run E force (init fs0) = (r, st') /\
    snd (main E force fs0) = st' /\
    (fst (main E force fs0) = 0 <-> r = Ok true) /\
    (fst (main E force fs0) = 1 <-> r <> Ok true).
Proof.
  unfold main. destruct (run E force (init fs0)) as [r st'].
  exists r, st'. split; [reflexivity|].
  destruct r as [[|]|e]; simpl; repeat split; intros; try congruence; try lia.
Qed.

Lemma refreshed_one_http (fs0 : fs) (p b : path) (doc0 tok : json)
    (r : res bool) (st : St) :
  refreshed E fs0 p b doc0 tok r st -> http_calls (trace st) = 1%nat.
Proof.
  intros H. unfold http_calls.
  destruct H as [st Ht _|st Ht _|st doc Ht|r st ntd s s1 _ _ _ Ht _ _ _];
    now rewrite Ht.
Qed.

(** C5. When the write of the backup file fails, that failure is the
    last action of the run: the primary file is never written, it is as it
    was before the run, and the exit status is 1. *)
Theorem backup_failure_keeps_primary (force : bool) (fs0 : fs) (p b : path) :
  find_claude_config E fs0 = Ok (Some p) ->
  with_suffix p ".json.backup" = Ok b ->
  existsb (is_write_fail_at b) (trace (snd (main E force fs0))) = true ->
  (exists tok,
     trace (snd (main E force fs0)) = [EvHttpPost tok; EvWriteFail b]) /\
  files (snd (main E force fs0)) p = fs0 p /\
  fst (main E force fs0) = 1.
Proof.
  intros Hfind Hb Hfail.
  destruct (main_run force fs0) as (r & st' & Hrun & Hst & _ & H1).
  rewrite Hst in *. rewrite H1.
  destruct (find_claude_config_candidate _ _ _ Hfind) as [Hin _].
  destruct (backup_differs E p b Hin Hb) as [Hpb _].
  destruct (run_cases E force fs0 r st' Hrun)
    as [[Ht _]|(p' & b' & doc0 & tok & Hfind' & Hb' & _ & Hr)].
  - rewrite Ht in Hfail. discriminate.
  - rewrite Hfind in Hfind'. injection Hfind' as <-.
    rewrite Hb in Hb'. injection Hb' as <-.
    destruct Hr as [st Ht _|st Ht Hf|st doc Ht|r st ntd s s1 _ _ _ Ht _ _ _];
      rewrite Ht in Hfail; simpl in Hfail.
    + discriminate.
    + split; [eauto|]. split; [exact Hf|discriminate].
    + rewrite Hpb in Hfail. discriminate.
    + discriminate.
Qed.

(** C10. After a run that ends with status 0 and reached the token
    endpoint, the backup file and the primary file hold the same
    document, and it is the document already changed by this run's merge:
    the endpoint's answer [ntd] to the stored token was merged into the
    loaded document, in the state the run had reached after the post,
    before either file was written; both writes carry the result, which
    holds the answer's access token. *)
Theorem backup_equals_primary (force : bool) (fs0 : fs) (st' : St) :
  main E force fs0 = (0, st') ->
  http_calls (trace st') <> 0%nat ->
  exists p b doc0 oc tok ntd n s1 access,
    find_claude_config E fs0 = Ok (Some p) /\
    with_suffix p ".json.backup" = Ok b /\
    on_disk fs0 p = Some doc0 /\
    get_oauth_config doc0 = Ok (Some oc) /\
    py_get oc "refreshToken" JNull = Ok tok /\
    http_post E tok = HttpStatus 200 (Some ntd) /\
    merge E ntd (mkSt (Some p) doc0 fs0 n [EvHttpPost tok]) = (Ok tt, s1) /\
    ticks st' = S (S n) /\
    trace st' =
      [EvHttpPost tok; EvWrite b (config_data s1); EvWrite p (config_data s1)] /\
    on_disk (files st') b = Some (config_data s1) /\
    on_disk (files st') p = Some (config_data s1) /\
    config_data st' = config_data s1 /\
    top ntd "access_token" = Some access /\
    field (config_data s1) (resolved_key doc0) "accessToken" = Some access.
Proof.
  intros Hmain Hhttp.
  destruct (main_run force fs0) as (r & st'' & Hrun & Hst & H0 & _).
  rewrite Hmain in Hst, H0. simpl in Hst, H0. subst st''.
  assert (Hr : r = Ok true) by (now apply H0). subst r.
  destruct (run_pinned E force fs0 _ st' Hrun)
    as [[Ht _]|(p & doc0 & oc & n & Hl & Hg & Hn & Htail)].
  { rewrite Ht in Hhttp. now elim Hhttp. }
  pose proof Hl as (Hfind & _ & Hfile).
  destruct (find_claude_config_candidate _ _ _ Hfind) as [Hin _].
  pose proof (backup_of_candidate E p Hin) as Hb.
  destruct (backup_differs E p _ Hin Hb) as [Hpb Hbp].
  destruct (refresh_and_update_success E oc (mkSt (Some p) doc0 fs0 n []) st' p _
              eq_refl Hb Hpb Htail)
    as (tok & ntd & s1 & Htok & _ & Hpost & Hm & Hd & Htk & Htr & Hf).
  destruct (merge_inv E _ _ _ Hm)
    as (r & d0 & access & seconds & scopes & o5 & o6 & -> & Hcd & Ha & _ & _ & H5 & H6 & Hs1).
  cbn [config_data log] in Hcd, H5, Hs1. cbv zeta in H5, Hs1.
  exists p, (mkPath (parent p) (name p ++ ".backup")), doc0, oc, tok, (JDict r),
    n, s1, access.
  split; [exact Hfind|]. split; [exact Hb|].
  split; [unfold on_disk; now rewrite Hfile|].
  split; [exact Hg|]. split; [exact Htok|]. split; [exact Hpost|].
  split; [exact Hm|].
  split. { rewrite Htk, Hs1. reflexivity. }
  split; [exact Htr|].
  split. { unfold on_disk. rewrite Hf. cbn [files log].
           now rewrite (fs_put_other _ _ _ _ Hbp), fs_put_same. }
  split. { unfold on_disk. rewrite Hf. now rewrite fs_put_same. }
  split; [exact Hd|]. split; [exact Ha|].
  rewrite Hs1. cbn [config_data with_data]. rewrite field_after_merge.
  rewrite (pair_assigned_frame _ _ _ _ _ _ _ _ "accessToken" H6) by discriminate.
  rewrite (pair_assigned_frame _ _ _ _ _ _ _ _ "accessToken" H5) by discriminate.
  rewrite !dict_lookup_set_neq by discriminate.
  apply dict_lookup_set_eq.
Qed.

(** C3, amended. When the stored [expiresAt] is absent, not positive, or
    strictly below the clock (and an instant [datetime] accepts), and the
    stored refresh token is not empty, the run posts exactly one refresh
    request, whatever [force] is. *)
Theorem expired_posts_once (force : bool) (fs0 : fs) (p : path) (doc : json)
    (o : dict) (tok : json) :
  loads E fs0 p doc ->
  get_oauth_config doc = Ok (Some (JDict o)) ->
  dict_lookup "refreshToken" o = Some tok ->
  py_truthy tok = true ->
  (dict_lookup "expiresAt" o = None \/
   exists e, dict_lookup "expiresAt" o = Some (JInt e) /\
             (e <= 0 \/ (e < clock E 0 /\ fromtimestamp_ok E e = true))) ->
  http_calls (trace (snd (main E force fs0))) = 1%nat.
Proof.
  intros Hl Hg Htok Htruthy Hexp.
  destruct (main_run force fs0) as (r & st' & Hrun & Hst & _).
  rewrite Hst. rewrite (run_loaded E force fs0 p doc o Hl Hg) in Hrun.
  cbv zeta in Hrun.
  destruct Hl as (Hfind & _).
  destruct (find_claude_config_candidate _ _ _ Hfind) as [Hin _].
  pose proof (backup_of_candidate E p Hin) as Hb.
  destruct (backup_differs E p _ Hin Hb) as [Hne _].
  assert (Htail : forall st,
            trace st = [] -> files st = fs0 -> config_file st = Some p ->
            refresh_and_update E (JDict o) st = (r, st') ->
            http_calls (trace st') = 1%nat).
  { intros st Ht Hf Hcf H.
    pose proof (refresh_and_update_cases E _ st p _ fs0 r st' Hcf Hb Hne Ht Hf H) as Hc.
    simpl in Hc. unfold dict_get in Hc. rewrite Htok, Htruthy in Hc.
    eapply refreshed_one_http; eauto. }
  unfold dict_get in Hrun.
  destruct Hexp as [Hnone|(e & Hsome & He)].
  - rewrite Hnone in Hrun. simpl in Hrun. refine (Htail _ _ _ _ Hrun); reflexivity.
  - rewrite Hsome in Hrun. simpl py_int in Hrun. cbv iota in Hrun.
    destruct He as [Hle|[Hlt Hok]].
    + replace (0 <? e) with false in Hrun by (symmetry; apply Z.ltb_ge; lia).
      refine (Htail _ _ _ _ Hrun); reflexivity.
    + destruct (0 <? e).
      * rewrite Hok in Hrun.
        replace (e <? clock E 0) with true in Hrun by (symmetry; apply Z.ltb_lt; lia).
        simpl in Hrun. refine (Htail _ _ _ _ Hrun); reflexivity.
      * refine (Htail _ _ _ _ Hrun); reflexivity.
Qed.

(** When the stored [expiresAt] is ahead of a non-negative clock and is
    an instant [datetime] accepts, an unforced run does nothing and exits
    with status 0. *)
Lemma valid_token_noop (fs0 : fs) (p : path) (doc : json) (o : dict) (e : Z) :
  loads E fs0 p doc ->
  get_oauth_config doc = Ok (Some (JDict o)) ->
  dict_lookup "expiresAt" o = Some (JInt e) ->
  0 <= clock E 0 < e ->
  fromtimestamp_ok E e = true ->
  fst (main E false fs0) = 0 /\
  trace (snd (main E false fs0)) = [] /\
  files (snd (main E false fs0)) = fs0.
Proof.
  intros Hl Hg He Hclock Hok.
  unfold main. rewrite (run_loaded E false fs0 p doc o Hl Hg).
  cbv zeta. unfold dict_get. rewrite He. simpl py_int. cbv iota.
  replace (0 <? e) with true by (symmetry; apply Z.ltb_lt; lia).
  rewrite Hok.
  replace (e <? clock E 0) with false by (symmetry; apply Z.ltb_ge; lia).
  simpl. auto.
Qed.

(** The write order: whenever the primary file is written, the backup
    file was written just before it, with the same document. *)
Lemma primary_written_after_backup (force : bool) (fs0 : fs) (p b : path)
    (doc : json) :
  find_claude_config E fs0 = Ok (Some p) ->
  with_suffix p ".json.backup" = Ok b ->
  In (EvWrite p doc) (trace (snd (main E force fs0))) ->
  exists tok,
    trace (snd (main E force fs0)) = [EvHttpPost tok; EvWrite b doc; EvWrite p doc].
Proof.
  intros Hfind Hb Hin.
  destruct (main_run force fs0) as (r & st' & Hrun & Hst & _).
  rewrite Hst in *.
  destruct (find_claude_config_candidate _ _ _ Hfind) as [Hcand _].
  destruct (backup_differs E p b Hcand Hb) as [Hpb _].
  assert (Hne : p <> b).
  { intros ->. rewrite path_eqb_refl in Hpb. discriminate. }
  destruct (run_cases E force fs0 r st' Hrun)
    as [[Ht _]|(p' & b' & doc0 & tok & Hfind' & Hb' & _ & Hr)].
  - rewrite Ht in Hin. destruct Hin.
  - rewrite Hfind in Hfind'. injection Hfind' as <-.
    rewrite Hb in Hb'. injection Hb' as <-.
    destruct Hr as [st Ht _|st Ht Hf|st doc' Ht|r st ntd s s1 _ _ _ Ht _ _ _];
      rewrite Ht in Hin |- *; simpl in Hin;
      repeat match goal with
             | H : _ \/ _ |- _ => destruct H as [H|H]
             | H : False |- _ => destruct H
             | H : EvHttpPost _ = EvWrite _ _ |- _ => discriminate H
             | H : EvWriteFail _ = EvWrite _ _ |- _ => discriminate H
             | H : EvWrite ?x _ = EvWrite ?y _ |- _ =>
                 injection H; clear H; intros; subst; try congruence
             end.
    exists tok. reflexivity.
Qed.

End RunClaims.

Section RunWitnesses.

Lemma backup_failure_keeps_primary_witness :
  existsb (is_write_fail_at creds_backup)
    (trace (snd (main (env backup_unwritable (answer response_e2e)) false
                   (disk doc_e2e)))) = true /\
  (exists tok,
     trace (snd (main (env backup_unwritable (answer response_e2e)) false
                    (disk doc_e2e))) = [EvHttpPost tok; EvWriteFail creds_backup]) /\
  files (snd (main (env backup_unwritable (answer response_e2e)) false
                (disk doc_e2e))) creds = disk doc_e2e creds /\
  fst (main (env backup_unwritable (answer response_e2e)) false (disk doc_e2e)) = 1.
Proof.
  split; [reflexivity|].
  apply (backup_failure_keeps_primary
           (env backup_unwritable (answer response_e2e)) false (disk doc_e2e)
           creds creds_backup); reflexivity.
Defined.

Lemma backup_equals_primary_witness :
  exists p b doc0 oc tok ntd n s1 access,
    find_claude_config env_e2e (disk doc_e2e) = Ok (Some p) /\
    with_suffix p ".json.backup" = Ok b /\
    on_disk (disk doc_e2e) p = Some doc0 /\
    get_oauth_config doc0 = Ok (Some oc) /\
    py_get oc "refreshToken" JNull = Ok tok /\
    http_post env_e2e tok = HttpStatus 200 (Some ntd) /\
    merge env_e2e ntd (mkSt (Some p) doc0 (disk doc_e2e) n [EvHttpPost tok])
      = (Ok tt, s1) /\
    ticks (snd (main env_e2e false (disk doc_e2e))) = S (S n) /\
    trace (snd (main env_e2e false (disk doc_e2e))) =
      [EvHttpPost tok; EvWrite b (config_data s1); EvWrite p (config_data s1)] /\
    on_disk (files (snd (main env_e2e false (disk doc_e2e)))) b
      = Some (config_data s1) /\
    on_disk (files (snd (main env_e2e false (disk doc_e2e)))) p
      = Some (config_data s1) /\
    config_data (snd (main env_e2e false (disk doc_e2e))) = config_data s1 /\
    top ntd "access_token" = Some access /\
    field (config_data s1) (resolved_key doc0) "accessToken" = Some access.
Proof.
  apply (backup_equals_primary env_e2e false (disk doc_e2e)
           (snd (main env_e2e false (disk doc_e2e)))).
  - reflexivity.
  - vm_compute. discriminate.
Defined.

Lemma expired_posts_once_witness :
  http_calls (trace (snd (main env_e2e false (disk doc_e2e)))) = 1%nat /\
  http_calls (trace (snd (main env_e2e true (disk doc_e2e)))) = 1%nat.
Proof.
  split;
    apply (expired_posts_once env_e2e _ (disk doc_e2e) creds doc_e2e
             [("refreshToken", JStr "R1"); ("expiresAt", JInt 1000)] (JStr "R1"));
    try reflexivity;
    try (repeat split; reflexivity);
    (right; exists 1000; split; [reflexivity|]; right; split; [reflexivity|reflexivity]).
Defined.

(** C3 as stated fails at the boundary and on an empty token: with
    [expiresAt] equal to the clock reading an unforced run posts nothing
    (the test is [current_time > expires_at]), and with an empty stored
    refresh token no run posts anything. *)
Lemma expired_posts_once_counterexample :
  (dict_lookup "expiresAt" (record (doc_expiring now0) "claudeAiOauth")
     = Some (JInt now0) /\
   now0 <= clock env_e2e 0 /\
   http_calls (trace (snd (main env_e2e false (disk (doc_expiring now0))))) = 0%nat) /\
  (get_oauth_config doc_empty_token
     = Ok (Some (JDict [("refreshToken", JStr EmptyString)])) /\
   dict_lookup "expiresAt" (record doc_empty_token "claudeAiOauth") = None /\
   http_calls (trace (snd (main env_e2e false (disk doc_empty_token)))) = 0%nat /\
   http_calls (trace (snd (main env_e2e true (disk doc_empty_token)))) = 0%nat).
Proof.
  repeat split; try reflexivity; try (vm_compute; discriminate).
Qed.

(** C8, on the code: a stored [expiresAt] beyond the range of
    [datetime.fromtimestamp] makes line 253 raise, and the run of a still
    valid token ends with status 1 (no request, no write). *)
Theorem valid_token_far_future_crashes :
  dict_lookup "expiresAt" (record (doc_expiring far_future) "claudeAiOauth")
    = Some (JInt far_future) /\
  clock env_e2e 0 < far_future /\
  run env_e2e false (init (disk (doc_expiring far_future))) =
    (Raise ValueError, loaded_state (doc_expiring far_future)) /\
  fst (main env_e2e false (disk (doc_expiring far_future))) = 1 /\
  http_calls (trace (snd (main env_e2e false (disk (doc_expiring far_future))))) = 0%nat /\
  file_writes (trace (snd (main env_e2e false (disk (doc_expiring far_future))))) = 0%nat.
Proof.
  repeat split; reflexivity.
Qed.

(** C1, on the code: with an earlier key that lacks [refreshToken],
    extraction returns the record under [oauth] while [update_config]
    writes the new tokens under [claudeAiOauth]; the extracted record is
    persisted unchanged. *)
Theorem persister_updates_other_key :
  extracted_key doc_two_keys = Ok (Some "oauth") /\
  resolved_key doc_two_keys = "claudeAiOauth" /\
  fst (main (env all_writable (answer response_rotated)) false (disk doc_two_keys)) = 0 /\
  on_disk (files (snd (main (env all_writable (answer response_rotated)) false
                         (disk doc_two_keys)))) creds =
    Some (JDict
            [("claudeAiOauth",
              JDict [("accessToken", JStr "A2"); ("refreshToken", JStr "R2");
                     ("expiresAt", JInt (now0 + 2 + 3600000));
                     ("scopes", JList [])]);
             ("oauth",
              JDict [("refreshToken", JStr "R1"); ("expiresAt", JInt 1000)])]).
Proof.
  repeat split; reflexivity.
Qed.

(** C2, on the code: in the end-to-end scenario of the specification the
    backup file holds the merged document, not the original one. *)
Theorem backup_holds_merged_document :
  fst (main env_e2e false (disk doc_e2e)) = 0 /\
  on_disk (disk doc_e2e) creds = Some doc_e2e /\
  on_disk (files (snd (main env_e2e false (disk doc_e2e)))) creds_backup =
    Some (JDict
            [("claudeAiOauth",
              JDict [("refreshToken", JStr "R1");
                     ("expiresAt", JInt (now0 + 2 + 3600000));
                     ("accessToken", JStr "A2"); ("scopes", JList [])])]) /\
  on_disk (files (snd (main env_e2e false (disk doc_e2e)))) creds_backup
    <> Some doc_e2e.
Proof.
  repeat split; try reflexivity. vm_compute. discriminate.
Qed.

End RunWitnesses.

(* ===================================================================== *)
(** ** Locating and loading the credential file *)
(* ===================================================================== *)

Section LocateFacts.
Variable E : Env.

Lemma first_file_spec (f : fs) (paths : list path) :
  match first_file E f paths with
  | Ok (Some p) =>
      exists before after,
        paths = (before ++ p :: after)%list /\
        stat_denied E p = false /\ (exists c, f p = Some (File c)) /\
        forall q, In q before ->
          stat_denied E q = false /\ (f q = None \/ f q = Some Dir)
  | Ok None =>
      forall q, In q paths ->
        stat_denied E q = false /\ (f q = None \/ f q = Some Dir)
  | Raise e =>
      e = OSError /\
      exists before q after,
        paths = (before ++ q :: after)%list /\
        stat_denied E q = true /\
        forall q', In q' before ->
          stat_denied E q' = false /\ (f q' = None \/ f q' = Some Dir)
  end.
Proof.
  induction paths as [|a rest IH]; simpl; [intros q []|].
  destruct (stat_denied E a) eqn:Hd.
  { split; [reflexivity|]. exists [], a, rest.
    split; [reflexivity|]. split; [exact Hd|]. intros x []. }
  destruct (is_file f a) eqn:Ha.
  { exists [], rest. split; [reflexivity|]. split; [exact Hd|]. split.
    - unfold is_file in Ha. destruct (f a) as [[|c]|]; try discriminate. eauto.
    - intros q []. }
  assert (Hno : f a = None \/ f a = Some Dir).
  { unfold is_file in Ha. destruct (f a) as [[|c]|]; auto. discriminate. }
  destruct (first_file E f rest) as [[p|]|e].
  - destruct IH as (before & after & -> & Hp & Hfile & Hb).
    exists (a :: before), after.
    split; [reflexivity|]. split; [exact Hp|]. split; [exact Hfile|].
    intros x [<-|Hx]; [auto|now apply Hb].
  - intros x [<-|Hx]; [auto|now apply IH].
  - destruct IH as (-> & before & q & after & -> & Hq & Hb).
    split; [reflexivity|]. exists (a :: before), q, after.
    split; [reflexivity|]. split; [exact Hq|].
    intros x [<-|Hx]; [auto|now apply Hb].
Qed.

(** X1. [find_claude_config] returns the first of the four candidates
    that is a regular file, every candidate before it having been examined
    and found missing or a directory, whatever the later ones are; it
    returns [None] when all four are missing or directories. It raises
    instead of searching on when the home directory cannot be determined,
    or at the first candidate it reaches that it is not allowed to
    examine: later candidates are then never tried. *)
Theorem find_claude_config_first (f : fs) :
  match find_claude_config E f with
  | Ok (Some p) =>
      home_known E = true /\
      exists before after,
        search_paths E = (before ++ p :: after)%list /\
        stat_denied E p = false /\ (exists c, f p = Some (File c)) /\
        forall q, In q before ->
          stat_denied E q = false /\ (f q = None \/ f q = Some Dir)
  | Ok None =>
      home_known E = true /\
      forall q, In q (search_paths E) ->
        stat_denied E q = false /\ (f q = None \/ f q = Some Dir)
  | Raise e =>
      (home_known E = false /\ e = RuntimeError) \/
      (home_known E = true /\ e = OSError /\
       exists before q after,
         search_paths E = (before ++ q :: after)%list /\
         stat_denied E q = true /\
         forall q', In q' before ->
           stat_denied E q' = false /\ (f q' = None \/ f q' = Some Dir))
  end.
Proof.
  unfold find_claude_config. destruct (home_known E); [|now left].
  pose proof (first_file_spec f (search_paths E)) as H.
  destruct (first_file E f (search_paths E)) as [[p|]|e].
  - split; [reflexivity|exact H].
  - split; [reflexivity|exact H].
  - right. destruct H as [-> H]. auto.
Qed.

End LocateFacts.

Section RunShape.
Variable E : Env.

(** A run either stops before the refresh with nothing done, or hands
    the extracted record to [refresh_and_update] in a state that has
    logged nothing and written nothing. *)
Lemma run_tail (force : bool) (fs0 : fs) (r : res bool) (st' : St) :
  run E force (init fs0) = (r, st') ->
  (trace st' = [] /\ files st' = fs0) \/
  (exists p oc st,
     loads E fs0 p (config_data st) /\
     get_oauth_config (config_data st) = Ok (Some oc) /\
     trace st = [] /\ files st = fs0 /\ config_file st = Some p /\
     refresh_and_update E oc st = (r, st')).
Proof.
  unfold run, bind at 1.
  destruct (load_config_spec E fs0) as (r0 & st0 & -> & Ht & Hf & Htk & Hok).
  destruct r0 as [[|]|e0]; cbn [negb].
  2:{ intros H. injection H as <- <-. left. auto. }
  2:{ intros H. injection H as <- <-. left. auto. }
  destruct (Hok eq_refl) as (p & Hloads & Hcf). clear Hok.
  pose proof Hloads as (Hfind & _).
  unfold bind at 1, get_config_data at 1. unfold bind at 1, lift at 1.
  destruct (get_oauth_config (config_data st0)) as [[oc|]|e] eqn:Hg;
    try (intros H; injection H as <- <-; left; auto; fail).
  assert (Htail : forall st,
            trace st = [] -> files st = fs0 -> config_file st = Some p ->
            config_data st = config_data st0 ->
            refresh_and_update E oc st = (r, st') ->
            (trace st' = [] /\ files st' = fs0) \/
            (exists p oc st,
               loads E fs0 p (config_data st) /\
               get_oauth_config (config_data st) = Ok (Some oc) /\
               trace st = [] /\ files st = fs0 /\ config_file st = Some p /\
               refresh_and_update E oc st = (r, st'))).
  { intros st Ht' Hf' Hcf' Hcd' H. right. exists p, oc, st.
    rewrite Hcd'. auto 10. }
  destruct (py_truthy oc); cbn [negb];
    try (intros H; injection H as <- <-; left; auto; fail).
  unfold bind at 1, lift at 1.
  destruct (py_get oc "expiresAt" (JInt 0)) as [v|e];
    try (intros H; injection H as <- <-; left; auto; fail).
  unfold bind at 1, lift at 1.
  destruct (py_int v) as [e|x];
    try (intros H; injection H as <- <-; left; auto; fail).
  destruct (0 <? e).
  - unfold bind at 1, fromtimestamp.
    destruct (fromtimestamp_ok E e);
      try (intros H; injection H as <- <-; left; auto; fail).
    unfold ret at 1. unfold bind at 1. unfold is_token_expired, bind at 1, read_clock at 1.
    unfold ret at 1. unfold bind at 1, read_clock at 1.
    destruct (negb (e <? clock E (ticks st0)) && negb force).
    + intros H. injection H as <- <-. left. auto.
    + apply Htail; auto.
  - unfold bind at 1, ret at 1. unfold bind at 1, ret at 1.
    unfold bind at 1, read_clock at 1. cbn [negb andb].
    apply Htail; auto.
Qed.

(** X2. When the search ends without a regular file, or the located
    file cannot be read, or it does not parse as JSON, [load_config]
    returns [False] and the run exits with status 1 having posted nothing
    and written nothing. *)
Theorem unloadable_config_fails (force : bool) (fs0 : fs) :
  (find_claude_config E fs0 = Ok None \/
   exists p, find_claude_config E fs0 = Ok (Some p) /\
             (readable E p = false \/ fs0 p = Some (File FGarbage))) ->
  (exists st, load_config E (init fs0) = (Ok false, st)) /\
  fst (main E force fs0) = 1 /\
  trace (snd (main E force fs0)) = [] /\
  files (snd (main E force fs0)) = fs0.
Proof.
  intros H.
  assert (Hl : exists st, load_config E (init fs0) = (Ok false, st) /\
                          trace st = [] /\ files st = fs0).
  { unfold load_config, bind, get_files, put_config_file, get_config_file,
      try_except, read_json, put_config_data, ret, with_data, init, lift. simpl.
    destruct H as [->|(p & -> & [Hr|Hg])]; simpl.
    - eexists. split; [reflexivity|]. auto.
    - rewrite Hr. eexists. split; [reflexivity|]. auto.
    - rewrite Hg. destruct (readable E p); eexists; (split; [reflexivity|]); auto. }
  destruct Hl as (st & Hl & Ht & Hf).
  split; [eauto|].
  assert (Hrun : run E force (init fs0) = (Ok false, st)).
  { unfold run, bind at 1. rewrite Hl. reflexivity. }
  unfold main. rewrite Hrun. simpl. auto.
Qed.

(** X22. When the search itself raises (home directory unknown, or a
    candidate that may not be examined), the exception is raised outside
    the [try] of [load_config]: it escapes [load_config] and [run], the
    refresher object is left as constructed, and the process exits with
    status 1 having posted nothing and written nothing. *)
Theorem search_error_escapes (force : bool) (fs0 : fs) (e : exn) :
  find_claude_config E fs0 = Raise e ->
  load_config E (init fs0) = (Raise e, init fs0) /\
  run E force (init fs0) = (Raise e, init fs0) /\
  fst (main E force fs0) = 1 /\
  trace (snd (main E force fs0)) = [] /\
  files (snd (main E force fs0)) = fs0.
Proof.
  intros H.
  assert (Hl : load_config E (init fs0) = (Raise e, init fs0)).
  { unfold load_config, bind, get_files, lift. simpl. now rewrite H. }
  assert (Hrun : run E force (init fs0) = (Raise e, init fs0)).
  { unfold run, bind at 1. now rewrite Hl. }
  unfold main. rewrite Hrun. simpl. auto.
Qed.

End RunShape.

(* ===================================================================== *)
(** ** Extraction of the OAuth record *)
(* ===================================================================== *)

Section ExtractionProperties.
Variable E : Env.

Lemma probe_first (keys : list string) (cd oc : json) :
  probe keys cd = Ok (Some oc) ->
  exists before k after,
    keys = (before ++ k :: after)%list /\
    top cd k = Some oc /\
    py_contains "refreshToken" oc = Ok true /\
    forall k', In k' before ->
      top cd k' = None \/
      exists oc', top cd k' = Some oc' /\
                  py_contains "refreshToken" oc' = Ok false.
Proof.
  induction keys as [|key rest IH]; simpl; [discriminate|].
  destruct (py_contains key cd) as [[|]|] eqn:Hin; simpl; try discriminate.
  - destruct (py_getitem cd key) as [x|] eqn:Hx; simpl; try discriminate.
    assert (Htop : top cd key = Some x).
    { destruct cd; try discriminate. simpl in *.
      destruct (dict_lookup key d); congruence. }
    destruct (py_contains "refreshToken" x) as [[|]|] eqn:Hc; simpl;
      try discriminate.
    + intros H. injection H as <-. exists [], key, rest.
      repeat split; auto. intros k' [].
    + intros H. destruct (IH H) as (before & k & after & -> & Hk & Hc' & Hb).
      exists (key :: before), k, after. repeat split; auto.
      intros k' [<-|Hk']; eauto.
  - intros H. destruct (IH H) as (before & k & after & -> & Hk & Hc' & Hb).
    exists (key :: before), k, after. repeat split; auto.
    intros k' [<-|Hk']; [|auto]. left.
    destruct cd; simpl in *; try reflexivity.
    injection Hin as Hin. now apply dict_mem_false.
Qed.

(** X3. What [get_oauth_config] returns is the value stored under one of
    the three keys, it contains ['refreshToken'], and every key of higher
    priority is absent from the document or holds a value without
    ['refreshToken']. *)
Theorem extraction_priority (cd oc : json) :
  get_oauth_config cd = Ok (Some oc) ->
  exists before k after,
    oauth_keys = (before ++ k :: after)%list /\
    top cd k = Some oc /\
    py_contains "refreshToken" oc = Ok true /\
    forall k', In k' before ->
      top cd k' = None \/
      exists oc', top cd k' = Some oc' /\
                  py_contains "refreshToken" oc' = Ok false.
Proof.
  unfold get_oauth_config. destruct (negb (py_truthy cd)); [discriminate|].
  apply probe_first.
Qed.

Lemma probe_none (keys : list string) (d : dict) :
  (forall k, In k keys ->
     dict_lookup k d = None \/
     exists o, dict_lookup k d = Some (JDict o) /\
               dict_lookup "refreshToken" o = None) ->
  probe keys (JDict d) = Ok None.
Proof.
  induction keys as [|key rest IH]; intros H; simpl; [reflexivity|].
  unfold dict_mem.
  destruct (H key (or_introl eq_refl)) as [Hn|(o & Ho & Hr)].
  - rewrite Hn. simpl. apply IH. intros k Hk. apply H. now right.
  - rewrite Ho. simpl. unfold dict_mem. rewrite Hr. simpl.
    apply IH. intros k Hk. apply H. now right.
Qed.

(** X4. A document in which each of the three keys is absent or holds an
    object without [refreshToken] has no OAuth configuration: extraction
    returns [None] and the run exits with status 1, nothing posted,
    nothing written. *)
Theorem no_oauth_section_fails (force : bool) (fs0 : fs) (p : path) (d : dict) :
  loads E fs0 p (JDict d) ->
  (forall k, In k oauth_keys ->
     dict_lookup k d = None \/
     exists o, dict_lookup k d = Some (JDict o) /\
               dict_lookup "refreshToken" o = None) ->
  get_oauth_config (JDict d) = Ok None /\
  fst (main E force fs0) = 1 /\
  trace (snd (main E force fs0)) = [] /\
  files (snd (main E force fs0)) = fs0.
Proof.
  intros Hl Hk.
  assert (Hg : get_oauth_config (JDict d) = Ok None).
  { unfold get_oauth_config. destruct (negb (py_truthy (JDict d))); [reflexivity|].
    now apply probe_none. }
  split; [exact Hg|].
  assert (Hrun : run E force (init fs0) = (Ok false, mkSt (Some p) (JDict d) fs0 0 [])).
  { unfold run. unfold bind at 1. rewrite (load_config_loads _ _ _ _ Hl). cbn [negb].
    unfold bind at 1, get_config_data at 1. cbn [config_data].
    unfold bind at 1, lift at 1. rewrite Hg. reflexivity. }
  unfold main. rewrite Hrun. simpl. auto.
Qed.

Lemma probe_scalar (keys before after : list string) (k : string) (d : dict)
    (v : json) :
  keys = (before ++ k :: after)%list ->
  (forall k', In k' before ->
     dict_lookup k' d = None \/
     exists o, dict_lookup k' d = Some (JDict o) /\
               dict_lookup "refreshToken" o = None) ->
  dict_lookup k d = Some v ->
  py_contains "refreshToken" v = Raise TypeError ->
  probe keys (JDict d) = Raise TypeError.
Proof.
  intros -> Hb Hk Hv. induction before as [|key rest IH]; simpl.
  - unfold dict_mem. rewrite Hk. simpl. rewrite Hv. reflexivity.
  - unfold dict_mem.
    destruct (Hb key (or_introl eq_refl)) as [Hn|(o & Ho & Hr)].
    + rewrite Hn. simpl. apply IH. intros k' Hk'. apply Hb. now right.
    + rewrite Ho. simpl. unfold dict_mem. rewrite Hr. simpl.
      apply IH. intros k' Hk'. apply Hb. now right.
Qed.

(** X5. When the first usable position is taken by a number, a boolean
    or [null] (the keys before it being absent or without [refreshToken]),
    the membership test of [get_oauth_config] raises [TypeError]: the run
    ends with status 1 and no effect, even if a later key holds a valid
    record. *)
Theorem scalar_section_crashes (force : bool) (fs0 : fs) (p : path) (d : dict)
    (before after : list string) (k : string) (v : json) :
  loads E fs0 p (JDict d) ->
  oauth_keys = (before ++ k :: after)%list ->
  (forall k', In k' before ->
     dict_lookup k' d = None \/
     exists o, dict_lookup k' d = Some (JDict o) /\
               dict_lookup "refreshToken" o = None) ->
  dict_lookup k d = Some v ->
  (v = JNull \/ (exists b, v = JBool b) \/ exists n, v = JInt n) ->
  get_oauth_config (JDict d) = Raise TypeError /\
  fst (main E force fs0) = 1 /\
  trace (snd (main E force fs0)) = [] /\
  files (snd (main E force fs0)) = fs0.
Proof.
  intros Hl Hkeys Hb Hk Hv.
  assert (Hc : py_contains "refreshToken" v = Raise TypeError).
  { destruct Hv as [->|[(b & ->)|(n & ->)]]; reflexivity. }
  assert (Hg : get_oauth_config (JDict d) = Raise TypeError).
  { unfold get_oauth_config.
    destruct d as [|e r]; [discriminate Hk|]. cbn [py_truthy negb].
    eapply probe_scalar; eauto. }
  split; [exact Hg|].
  assert (Hrun : run E force (init fs0) =
                 (Raise TypeError, mkSt (Some p) (JDict d) fs0 0 [])).
  { unfold run. unfold bind at 1. rewrite (load_config_loads _ _ _ _ Hl). cbn [negb].
    unfold bind at 1, get_config_data at 1. cbn [config_data].
    unfold bind at 1, lift at 1. rewrite Hg. reflexivity. }
  unfold main. rewrite Hrun. simpl. auto.
Qed.

(** X6. A stored record that is not an object, or whose [expiresAt] is
    not a number, makes [run] raise before anything is posted or written:
    the process ends with status 1. *)
Theorem malformed_record_crashes (force : bool) (fs0 : fs) (p : path)
    (doc oc : json) :
  loads E fs0 p doc ->
  get_oauth_config doc = Ok (Some oc) ->
  match oc with
  | JDict o => exists v, dict_lookup "expiresAt" o = Some v /\
                         py_int v = Raise TypeError
  | _ => True
  end ->
  (exists e st, run E force (init fs0) = (Raise e, st) /\
                trace st = [] /\ files st = fs0) /\
  fst (main E force fs0) = 1.
Proof.
  intros Hl Hg Hoc.
  pose proof (run_extracted E force fs0 p doc oc Hl Hg) as Hrun. cbv zeta in Hrun.
  assert (H : exists e, run E force (init fs0) =
                        (Raise e, mkSt (Some p) doc fs0 0 [])).
  { destruct oc as [| | | | |o]; simpl in Hrun; eauto.
    destruct Hoc as (v & Hv & Hint). unfold dict_get in Hrun.
    rewrite Hv, Hint in Hrun. eauto. }
  destruct H as (e & H). split.
  - exists e. eexists. split; [exact H|]. auto.
  - unfold main. now rewrite H.
Qed.

End ExtractionProperties.

(* ===================================================================== *)
(** ** The refresh request and what a run may touch *)
(* ===================================================================== *)

Section EffectProperties.
Variable E : Env.

(** X7. When the endpoint never answers with status 200 and a non-empty
    JSON body (other status, transport error, unparsable or empty body),
    no run writes a file: the file system is unchanged, and a run that
    reached the endpoint made exactly that one call and exits with
    status 1. *)
Theorem failed_refresh_writes_nothing (force : bool) (fs0 : fs) :
  (forall tok,
     match http_post E tok with
     | HttpStatus code (Some ntd) => code = 200 -> py_truthy ntd = false
     | _ => True
     end) ->
  files (snd (main E force fs0)) = fs0 /\
  file_writes (trace (snd (main E force fs0))) = 0%nat /\
  (trace (snd (main E force fs0)) = [] \/
   exists tok,
     trace (snd (main E force fs0)) = [EvHttpPost tok] /\
     fst (main E force fs0) = 1).
Proof.
  intros Hhttp.
  destruct (main_run E force fs0) as (r & st' & Hrun & Hst & _ & H1).
  rewrite Hst.
  destruct (run_tail E force fs0 r st' Hrun)
    as [[Ht Hf]|(p & oc & st & _ & _ & Ht & Hf & _ & Htail)].
  - rewrite Ht. auto.
  - unfold refresh_and_update, bind at 1, lift at 1 in Htail.
    destruct (py_get oc "refreshToken" JNull) as [tok|e].
    2:{ injection Htail as <- <-. rewrite Ht. auto. }
    destruct (py_truthy tok); cbn [negb] in Htail.
    2:{ injection Htail as <- <-. rewrite Ht. auto. }
    unfold bind at 1 in Htail.
    destruct (refresh_token_spec E tok st) as (resp & Hresp & Hcode).
    rewrite Hresp in Htail.
    assert (Hend : r = Ok false /\ st' = log (EvHttpPost tok) st).
    { destruct resp as [ntd|].
      - specialize (Hhttp tok). rewrite (Hcode ntd eq_refl) in Hhttp.
        rewrite (Hhttp eq_refl) in Htail. cbn [negb] in Htail.
        injection Htail as <- <-. auto.
      - injection Htail as <- <-. auto. }
    destruct Hend as [-> ->]. simpl. rewrite Ht, Hf. simpl.
    repeat split; auto. right. exists tok. split; [reflexivity|].
    apply H1. discriminate.
Qed.

(** X8. A response that is not an object, or lacks [access_token], or
    has a non-numeric [expires_in], or a non-empty [scope] that is not a
    string, or an [organization] or [account] without its two fields, is
    rejected by [update_config]: it returns [False] and no file is
    written. *)
Theorem malformed_response_rejected (ntd : json) (st : St) :
  match ntd with
  | JDict r =>
      dict_lookup "access_token" r = None \/
      (exists v, dict_lookup "expires_in" r = Some v /\
                 py_int v = Raise TypeError) \/
      (exists v, dict_lookup "scope" r = Some v /\ py_truthy v = true /\
                 forall s, v <> JStr s) \/
      (exists org, dict_lookup "organization" r = Some org /\
         ((forall u, py_getitem org "uuid" <> Ok u) \/
          (forall n, py_getitem org "name" <> Ok n))) \/
      (exists acc, dict_lookup "account" r = Some acc /\
         ((forall u, py_getitem acc "uuid" <> Ok u) \/
          (forall m, py_getitem acc "email_address" <> Ok m)))
  | _ => True
  end ->
  exists st',
    update_config E ntd st = (Ok false, st') /\
    files st' = files st /\ trace st' = trace st.
Proof.
  intros Hbad.
  unfold update_config, try_except. unfold bind at 1.
  pose proof (keeps_io_merge E ntd st) as (Hf & Ht & _).
  destruct (merge E ntd st) as [[[]|e] st1] eqn:Hm; simpl in Hf, Ht.
  2:{ exists st1. auto. }
  exfalso.
  destruct (merge_inv E _ _ _ Hm)
    as (r & d0 & access & seconds & scopes & o5 & o6 & -> & Hcd & Ha & Hs & Hsc & H5 & H6 & _).
  destruct Hbad as [Hn|[(v & Hv & Hint)|[(v & Hv & Htr & Hns)|[(org & Ho & Hbad)|(acc & Ho & Hbad)]]]].
  - congruence.
  - unfold dict_get in Hs. rewrite Hv in Hs. congruence.
  - unfold scopes_assigned, dict_get in Hsc. rewrite Hv, Htr in Hsc.
    destruct Hsc as (s & Hs' & _). injection Hs' as ->. now apply (Hns s).
  - unfold pair_assigned in H5. rewrite Ho in H5.
    destruct H5 as (a & b & Hu & Hn & _).
    destruct Hbad as [Hbad|Hbad]; [now apply (Hbad a)|now apply (Hbad b)].
  - unfold pair_assigned in H6. rewrite Ho in H6.
    destruct H6 as (a & b & Hu & Hn & _).
    destruct Hbad as [Hbad|Hbad]; [now apply (Hbad a)|now apply (Hbad b)].
Qed.

(** X9. The only thing a run ever posts is the [refreshToken] of the
    record [get_oauth_config] extracted from the loaded file, and that
    token is not empty. *)
Theorem posted_token_is_stored_token (force : bool) (fs0 : fs) (tok : json) :
  In (EvHttpPost tok) (trace (snd (main E force fs0))) ->
  exists p doc oc,
    loads E fs0 p doc /\
    get_oauth_config doc = Ok (Some oc) /\
    py_get oc "refreshToken" JNull = Ok tok /\
    py_truthy tok = true.
Proof.
  intros Hin.
  destruct (main_run E force fs0) as (r & st' & Hrun & Hst & _).
  rewrite Hst in Hin.
  destruct (run_tail E force fs0 r st' Hrun)
    as [[Ht _]|(p & oc & st & Hl & Hg & Ht & Hf & Hcf & Htail)].
  - rewrite Ht in Hin. destruct Hin.
  - pose proof Hl as (Hfind & _).
    destruct (find_claude_config_candidate _ _ _ Hfind) as [Hcand _].
    pose proof (backup_of_candidate E p Hcand) as Hb.
    destruct (backup_differs E p _ Hcand Hb) as [Hne _].
    pose proof (refresh_and_update_cases E oc st p _ fs0 r st' Hcf Hb Hne Ht Hf Htail) as Hc.
    exists p, (config_data st), oc. split; [exact Hl|]. split; [exact Hg|].
    destruct (py_get oc "refreshToken" JNull) as [tok'|e].
    2:{ destruct Hc as [_ ->]. rewrite Ht in Hin. destruct Hin. }
    destruct (py_truthy tok') eqn:Htr.
    2:{ destruct Hc as [_ ->]. rewrite Ht in Hin. destruct Hin. }
    assert (tok = tok').
    { destruct Hc as [s Hts _|s Hts _|s doc Hts|r s ntd s0 s1 _ _ _ Hts _ _ _];
        rewrite Hts in Hin; simpl in Hin;
        repeat match goal with
               | H : _ \/ _ |- _ => destruct H as [H|H]
               | H : False |- _ => destruct H
               | H : EvHttpPost _ = EvHttpPost _ |- _ => injection H as <-
               | H : _ = EvHttpPost _ |- _ => discriminate H
               end; reflexivity. }
    subst tok'. auto.
Qed.

(** X10. No run posts more than once or writes more than twice, and
    every write, successful or not, goes to the located file or to its
    backup path. *)
Theorem run_effects_bounded (force : bool) (fs0 : fs) :
  (http_calls (trace (snd (main E force fs0))) <= 1)%nat /\
  (file_writes (trace (snd (main E force fs0))) <= 2)%nat /\
  forall q,
    ((exists doc, In (EvWrite q doc) (trace (snd (main E force fs0)))) \/
     In (EvWriteFail q) (trace (snd (main E force fs0)))) ->
    exists p b,
      find_claude_config E fs0 = Ok (Some p) /\
      with_suffix p ".json.backup" = Ok b /\
      (q = p \/ q = b).
Proof.
  destruct (main_run E force fs0) as (r & st' & Hrun & Hst & _).
  rewrite Hst.
  destruct (run_cases E force fs0 r st' Hrun)
    as [[Ht _]|(p & b & doc0 & tok & Hfind & Hb & _ & Hr)].
  - rewrite Ht. simpl. repeat split; auto.
    intros q [(doc & [])|[]].
  - assert (Hev : exists l, trace st' = EvHttpPost tok :: l /\
                   (l = [] \/ l = [EvWriteFail b] \/
                    (exists doc, l = [EvWrite b doc; EvWriteFail p]) \/
                    (exists doc, l = [EvWrite b doc; EvWrite p doc]))).
    { destruct Hr as [s Hts _|s Hts _|s doc Hts|r s ntd s0 s1 _ _ _ Hts _ _ _];
        eexists; (split; [exact Hts|]); eauto 6. }
    destruct Hev as (l & -> & Hl).
    destruct Hl as [->|[->|[(doc & ->)|(doc & ->)]]];
      unfold http_calls, file_writes; simpl;
      (split; [lia|]); (split; [lia|]);
      intros q Hq; exists p, b; (split; [exact Hfind|]); (split; [exact Hb|]);
      destruct Hq as [(d & Hq)|Hq]; simpl in Hq;
      repeat match goal with
             | H : _ \/ _ |- _ => destruct H as [H|H]
             | H : False |- _ => destruct H
             | H : EvWrite _ _ = EvWrite _ _ |- _ =>
                 injection H; clear H; intros; subst; auto
             | H : EvWriteFail _ = EvWriteFail _ |- _ =>
                 injection H; clear H; intros; subst; auto
             | H : _ = _ |- _ => discriminate H
             end.
Qed.

End EffectProperties.

Section FileProperties.
Variable E : Env.

Lemma write_json_other (p q : path) (doc : json) (st : St) :
  path_eqb q p = false ->
  files (snd (write_json E p doc st)) q = files st q /\
  config_file (snd (write_json E p doc st)) = config_file st.
Proof.
  intros Hq.
  destruct (write_json_cases E p doc st) as [Hw|(st' & Hw & _ & Hc & _ & Hf)];
    rewrite Hw; simpl.
  - split; [|reflexivity]. unfold fs_put. now rewrite Hq.
  - split; [now apply Hf|exact Hc].
Qed.

Lemma update_config_other (ntd : json) (st : St) (p b q : path) :
  config_file st = Some p ->
  with_suffix p ".json.backup" = Ok b ->
  path_eqb q p = false -> path_eqb q b = false ->
  files (snd (update_config E ntd st)) q = files st q.
Proof.
  intros Hcf Hb Hqp Hqb.
  unfold update_config, try_except. unfold bind at 1.
  pose proof (keeps_io_merge E ntd st) as (Hf & _ & Hc).
  destruct (merge E ntd st) as [[[]|e] st1]; simpl in Hf, Hc;
    [|simpl; now rewrite Hf].
  assert (Hp : files (snd (persist E st1)) q = files st q).
  { unfold persist, bind at 1, get_config_file. rewrite Hc, Hcf.
    unfold bind at 1, lift. rewrite Hb.
    unfold bind at 1, get_config_data. unfold bind at 1.
    destruct (write_json_other b q (config_data st1) st1 Hqb) as [Hf1 _].
    destruct (write_json E b (config_data st1) st1) as [[[]|e] s1]; simpl in Hf1.
    - unfold bind.
      destruct (write_json_other p q (config_data s1) s1 Hqp) as [Hf2 _].
      congruence.
    - simpl. congruence. }
  unfold bind at 1.
  destruct (persist E st1) as [[[]|e] s2]; simpl in Hp |- *; exact Hp.
Qed.

(** X11. A run leaves every file other than the located credential file
    and its backup exactly as it was. *)
Theorem other_files_untouched (force : bool) (fs0 : fs) (q : path) :
  (forall p b,
     find_claude_config E fs0 = Ok (Some p) ->
     with_suffix p ".json.backup" = Ok b ->
     path_eqb q p = false /\ path_eqb q b = false) ->
  files (snd (main E force fs0)) q = fs0 q.
Proof.
  intros Hq.
  destruct (main_run E force fs0) as (r & st' & Hrun & Hst & _).
  rewrite Hst.
  destruct (run_tail E force fs0 r st' Hrun)
    as [[_ Hf]|(p & oc & st & Hl & _ & Ht & Hf & Hcf & Htail)].
  - now rewrite Hf.
  - pose proof Hl as (Hfind & _).
    destruct (find_claude_config_candidate _ _ _ Hfind) as [Hcand _].
    pose proof (backup_of_candidate E p Hcand) as Hb.
    destruct (Hq p _ Hfind Hb) as [Hqp Hqb].
    unfold refresh_and_update, bind at 1, lift at 1 in Htail.
    destruct (py_get oc "refreshToken" JNull) as [tok|e].
    2:{ injection Htail as <- <-. now rewrite Hf. }
    destruct (py_truthy tok); cbn [negb] in Htail.
    2:{ injection Htail as <- <-. now rewrite Hf. }
    unfold bind at 1 in Htail.
    destruct (refresh_token_spec E tok st) as (resp & Hresp & _).
    rewrite Hresp in Htail.
    destruct resp as [ntd|].
    2:{ injection Htail as <- <-. simpl. now rewrite Hf. }
    destruct (py_truthy ntd); cbn [negb] in Htail.
    2:{ injection Htail as <- <-. simpl. now rewrite Hf. }
    unfold bind at 1 in Htail.
    pose proof (update_config_other ntd (log (EvHttpPost tok) st) p _ q
                  Hcf Hb Hqp Hqb) as Hu.
    destruct (update_config E ntd (log (EvHttpPost tok) st)) as [[[|]|e] s1];
      simpl in Hu.
    + destruct (report_spec E ntd s1) as (r' & s2 & Hrep & _ & Hf2 & _).
      rewrite Hrep in Htail. injection Htail as <- <-.
      rewrite Hf2, Hu. now rewrite Hf.
    + injection Htail as <- <-. rewrite Hu. now rewrite Hf.
    + injection Htail as <- <-. rewrite Hu. now rewrite Hf.
Qed.

(** X12. When [run] ends with an exception, either nothing was posted or
    written, or the update had already been persisted in full (the
    exception comes from the final report): the process then exits with
    status 1 although both files hold the new document. *)
Theorem exception_leaves_all_or_nothing (force : bool) (fs0 : fs) (e : exn)
    (st' : St) :
  run E force (init fs0) = (Raise e, st') ->
  fst (main E force fs0) = 1 /\
  ((trace st' = [] /\ files st' = fs0) \/
   exists p b tok doc,
     find_claude_config E fs0 = Ok (Some p) /\
     with_suffix p ".json.backup" = Ok b /\
     trace st' = [EvHttpPost tok; EvWrite b doc; EvWrite p doc] /\
     on_disk (files st') p = Some doc /\
     on_disk (files st') b = Some doc).
Proof.
  intros Hrun. split; [unfold main; now rewrite Hrun|].
  destruct (run_cases E force fs0 _ st' Hrun)
    as [H|(p & b & doc0 & tok & Hfind & Hb & _ & Hr)]; [now left|].
  right.
  destruct (find_claude_config_candidate _ _ _ Hfind) as [Hcand _].
  destruct (backup_differs E p b Hcand Hb) as [_ Hbp].
  inversion Hr as [| | |r st ntd s s1 _ _ _ Ht Hf _ _]; subst.
  exists p, b, tok, (config_data s1).
  repeat split; auto; unfold on_disk; rewrite Hf.
  - now rewrite fs_put_same.
  - now rewrite (fs_put_other _ _ _ _ Hbp), fs_put_same.
Qed.

(** X13. When the backup is written and the primary file then cannot be
    opened, [update_config] returns [False], the primary file is as
    before, and the backup file holds the merged document: the new tokens
    exist on disk only there. *)
Theorem primary_failure_keeps_backup (ntd : json) (st st1 : St) (p b : path) :
  config_file st = Some p ->
  with_suffix p ".json.backup" = Ok b ->
  path_eqb p b = false ->
  merge E ntd st = (Ok tt, st1) ->
  files st b <> Some Dir ->
  writes E b = WriteOk ->
  (files st p = Some Dir \/ writes E p = WriteFailOpen) ->
  exists st',
    update_config E ntd st = (Ok false, st') /\
    on_disk (files st') b = Some (config_data st1) /\
    files st' p = files st p /\
    trace st' =
      (trace st ++ [EvWrite b (config_data st1); EvWriteFail p])%list.
Proof.
  intros Hcf Hb Hne Hm Hnd Hwb Hwp.
  pose proof (keeps_io_merge E ntd st) as (Hf & Ht & Hc).
  rewrite Hm in Hf, Ht, Hc. simpl in Hf, Ht, Hc.
  unfold update_config, try_except. unfold bind at 1. rewrite Hm.
  unfold bind at 1.
  assert (Hw1 : write_json E b (config_data st1) st1 =
                (Ok tt, log (EvWrite b (config_data st1))
                          (set_file b (File (FJson (config_data st1))) st1))).
  { unfold write_json. rewrite Hf, Hwb.
    destruct (files st b) as [[|c]|]; try reflexivity. now elim Hnd. }
  assert (Hpb : path_eqb p b = false) by exact Hne.
  assert (Hw2 : forall d,
            write_json E p d
              (log (EvWrite b (config_data st1))
                 (set_file b (File (FJson (config_data st1))) st1)) =
            (Raise OSError,
             log (EvWriteFail p)
               (log (EvWrite b (config_data st1))
                  (set_file b (File (FJson (config_data st1))) st1)))).
  { intros d. unfold write_json. simpl files. unfold fs_put at 1.
    rewrite Hpb, Hf.
    destruct Hwp as [Hd|Hw]; [now rewrite Hd|].
    rewrite Hw. destruct (files st p) as [[|c]|]; reflexivity. }
  assert (Hp : persist E st1 =
               (Raise OSError,
                log (EvWriteFail p)
                  (log (EvWrite b (config_data st1))
                     (set_file b (File (FJson (config_data st1))) st1)))).
  { unfold persist, bind at 1, get_config_file. rewrite Hc, Hcf.
    unfold bind at 1, lift. rewrite Hb.
    unfold bind at 1, get_config_data. unfold bind at 1. rewrite Hw1.
    unfold bind. apply Hw2. }
  rewrite Hp. eexists. split; [reflexivity|]. simpl.
  split; [unfold on_disk; now rewrite fs_put_same|].
  split.
  - unfold fs_put. now rewrite Hpb, Hf.
  - now rewrite Ht, <- app_assoc.
Qed.

(** X14. The backup of a candidate is the same path with [.backup]
    appended to the name, and it is none of the four candidates: writing
    it never overwrites a credential file. *)
Theorem backup_path_fresh (p q : path) :
  In p (search_paths E) ->
  In q (search_paths E) ->
  exists b,
    with_suffix p ".json.backup" = Ok b /\
    parent b = parent p /\
    name b = (name p ++ ".backup")%string /\
    b <> q.
Proof.
  intros Hp Hq. eexists. split; [apply (backup_of_candidate E p Hp)|].
  split; [reflexivity|]. split; [reflexivity|].
  intros Heq. apply (f_equal name) in Heq. simpl in Heq.
  unfold search_paths in Hp, Hq. simpl in Hp, Hq.
  destruct Hp as [<-|[<-|[<-|[<-|[]]]]];
    destruct Hq as [<-|[<-|[<-|[<-|[]]]]]; discriminate Heq.
Qed.

End FileProperties.

Section ExpiryProperties.
Variable E : Env.

(** X15. With the force flag, a stored non-empty refresh token and a
    stored [expiresAt] that is absent or an integer (one that
    [datetime.fromtimestamp] accepts when positive), the run posts exactly
    one request, whether or not the token has expired. *)
Theorem forced_run_posts_once (fs0 : fs) (p : path) (doc : json) (o : dict)
    (tok : json) :
  loads E fs0 p doc ->
  get_oauth_config doc = Ok (Some (JDict o)) ->
  dict_lookup "refreshToken" o = Some tok ->
  py_truthy tok = true ->
  match dict_lookup "expiresAt" o with
  | None => True
  | Some v => exists e, v = JInt e /\ (0 < e -> fromtimestamp_ok E e = true)
  end ->
  http_calls (trace (snd (main E true fs0))) = 1%nat.
Proof.
  intros Hl Hg Htok Htruthy Hexp.
  destruct (main_run E true fs0) as (r & st' & Hrun & Hst & _).
  rewrite Hst. rewrite (run_loaded E true fs0 p doc o Hl Hg) in Hrun.
  cbv zeta in Hrun.
  destruct Hl as (Hfind & _).
  destruct (find_claude_config_candidate _ _ _ Hfind) as [Hin _].
  pose proof (backup_of_candidate E p Hin) as Hb.
  destruct (backup_differs E p _ Hin Hb) as [Hne _].
  assert (Htail : forall st,
            trace st = [] -> files st = fs0 -> config_file st = Some p ->
            refresh_and_update E (JDict o) st = (r, st') ->
            http_calls (trace st') = 1%nat).
  { intros st Ht Hf Hcf H.
    pose proof (refresh_and_update_cases E _ st p _ fs0 r st' Hcf Hb Hne Ht Hf H) as Hc.
    simpl in Hc. unfold dict_get in Hc. rewrite Htok, Htruthy in Hc.
    eapply refreshed_one_http; eauto. }
  unfold dict_get in Hrun.
  destruct (dict_lookup "expiresAt" o) as [v|].
  - destruct Hexp as (e & -> & Hok). simpl py_int in Hrun. cbv iota in Hrun.
    destruct (0 <? e) eqn:Hpos.
    + rewrite (Hok (proj1 (Z.ltb_lt 0 e) Hpos)) in Hrun.
      rewrite orb_true_r in Hrun.
      refine (Htail _ _ _ _ Hrun); reflexivity.
    + refine (Htail _ _ _ _ Hrun); reflexivity.
  - simpl in Hrun. refine (Htail _ _ _ _ Hrun); reflexivity.
Qed.

(** X16. An unforced run whose stored [expiresAt] is positive, not
    earlier than the clock (equal counts as not expired) and accepted by
    [datetime.fromtimestamp] does nothing: status 0, nothing posted,
    nothing written, two clock readings. *)
Theorem unexpired_run_is_noop (fs0 : fs) (p : path) (doc : json) (o : dict)
    (e : Z) :
  loads E fs0 p doc ->
  get_oauth_config doc = Ok (Some (JDict o)) ->
  dict_lookup "expiresAt" o = Some (JInt e) ->
  0 < e ->
  clock E 0 <= e ->
  fromtimestamp_ok E e = true ->
  main E false fs0 = (0, mkSt (Some p) doc fs0 2 []).
Proof.
  intros Hl Hg He Hpos Hclock Hok.
  unfold main. rewrite (run_loaded E false fs0 p doc o Hl Hg).
  cbv zeta. unfold dict_get. rewrite He. simpl py_int. cbv iota.
  replace (0 <? e) with true by (symmetry; apply Z.ltb_lt; lia).
  rewrite Hok.
  replace (e <? clock E 0) with false by (symmetry; apply Z.ltb_ge; lia).
  reflexivity.
Qed.

End ExpiryProperties.

Section MergeProperties.
Variable E : Env.

Lemma dict_set_absent (k : string) (v : json) (d : dict) :
  dict_lookup k d = None -> dict_set k v d = (d ++ [(k, v)])%list.
Proof.
  induction d as [|[k' v'] r IH]; simpl; [reflexivity|].
  destruct (String.eqb k k'); [discriminate|]. intros H. now rewrite IH.
Qed.

Lemma dict_set_keys_present (k : string) (v : json) (d : dict) :
  dict_lookup k d <> None -> map fst (dict_set k v d) = map fst d.
Proof.
  induction d as [|[k' v'] r IH]; simpl; [congruence|].
  destruct (String.eqb k k'); simpl; [reflexivity|].
  intros H. now rewrite IH.
Qed.

Lemma dict_set_keys_extend (k : string) (v : json) (d : dict) :
  exists extra, map fst (dict_set k v d) = (map fst d ++ extra)%list.
Proof.
  destruct (dict_lookup k d) eqn:Hl.
  - exists []. rewrite app_nil_r. apply dict_set_keys_present. congruence.
  - exists [k]. rewrite (dict_set_absent _ _ _ Hl), map_app. reflexivity.
Qed.

Lemma pair_assigned_keys (r : dict) (src g1 g2 f1 f2 : string) (o o' : dict) :
  pair_assigned r src g1 g2 f1 f2 o o' ->
  exists extra, map fst o' = (map fst o ++ extra)%list.
Proof.
  unfold pair_assigned. destruct (dict_lookup src r).
  - intros (a & b & _ & _ & ->).
    destruct (dict_set_keys_extend f1 a o) as (x1 & H1).
    destruct (dict_set_keys_extend f2 b (dict_set f1 a o)) as (x2 & H2).
    exists (x1 ++ x2)%list. now rewrite H2, H1, app_assoc.
  - intros ->. exists []. now rewrite app_nil_r.
Qed.

(** X17. When the document being updated already has one of the three
    keys, the persisted document has the same top-level keys in the same
    order, and the record keeps its fields in their order, new fields
    coming after them. *)
Theorem key_order_kept (ntd : json) (st st' : St) :
  update_config E ntd st = (Ok true, st') ->
  let k := resolved_key (config_data st) in
  top (config_data st) k <> None ->
  exists p d0 d' extra,
    config_file st = Some p /\
    config_data st = JDict d0 /\
    on_disk (files st') p = Some (JDict d') /\
    map fst d' = map fst d0 /\
    map fst (record (JDict d') k) =
      (map fst (record (config_data st) k) ++ extra)%list.
Proof.
  intros H k Hk.
  destruct (update_config_record E _ _ _ H)
    as (p & r & d0 & access & seconds & scopes & o4 & o5 & o6 &
        Hcf & -> & Hcd & Hd & Ho4 & Ha & Hs & Hsc & H5 & H6).
  fold k in Hd, H5, Ho4, Hsc.
  destruct (pair_assigned_keys _ _ _ _ _ _ _ _ H6) as (x6 & E6).
  destruct (pair_assigned_keys _ _ _ _ _ _ _ _ H5) as (x5 & E5).
  assert (E4 : exists x4, map fst o4 =
                 (map fst (record (config_data st) k) ++ x4)%list).
  { subst o4.
    repeat match goal with
           | |- context [dict_set ?f ?v ?o] =>
               let x := fresh "x" in let Hx := fresh "Hx" in
               destruct (dict_set_keys_extend f v o) as (x & Hx);
               rewrite Hx; clear Hx
           end.
    eexists. rewrite <- !app_assoc. reflexivity. }
  destruct E4 as (x4 & E4).
  exists p, d0, (dict_set k (JDict o6) d0), (x4 ++ x5 ++ x6)%list.
  split; [exact Hcf|]. split; [exact Hcd|]. split; [exact Hd|]. split.
  - apply dict_set_keys_present. rewrite Hcd in Hk. exact Hk.
  - unfold record at 1, top. rewrite dict_lookup_set_eq.
    rewrite E6, E5, E4, <- !app_assoc. reflexivity.
Qed.

(** X18. On a document that has none of the three keys (the defensive
    path of [update_config]), a successful update appends a
    [claudeAiOauth] record after the existing entries; it holds the
    response's [access_token], and its [refreshToken] is the response's
    or [null]. *)
Theorem default_key_created (ntd : json) (st st' : St) :
  update_config E ntd st = (Ok true, st') ->
  (forall k, In k oauth_keys -> top (config_data st) k = None) ->
  exists p d0 r o',
    config_file st = Some p /\
    config_data st = JDict d0 /\
    ntd = JDict r /\
    on_disk (files st') p = Some (JDict (d0 ++ [("claudeAiOauth", JDict o')])) /\
    dict_lookup "accessToken" o' = dict_lookup "access_token" r /\
    dict_lookup "refreshToken" o' = Some (dict_get r "refresh_token" JNull).
Proof.
  intros H Habs.
  destruct (update_config_record E _ _ _ H)
    as (p & r & d0 & access & seconds & scopes & o4 & o5 & o6 &
        Hcf & -> & Hcd & Hd & Ho4 & Ha & Hs & Hsc & H5 & H6).
  rewrite Hcd in Habs. simpl in Habs.
  assert (Hkey : resolved_key (config_data st) = "claudeAiOauth").
  { rewrite Hcd. unfold resolved_key, oauth_keys. simpl. unfold dict_mem.
    rewrite !Habs by (simpl; auto). reflexivity. }
  rewrite Hkey in *.
  assert (Hrec : record (config_data st) "claudeAiOauth" = []).
  { rewrite Hcd. unfold record. simpl. now rewrite Habs by (simpl; auto). }
  rewrite Hrec in *.
  exists p, d0, r, o6.
  split; [exact Hcf|]. split; [exact Hcd|]. split; [reflexivity|].
  rewrite dict_set_absent in Hd by (apply Habs; simpl; auto).
  split; [exact Hd|].
  split.
  - rewrite (pair_assigned_frame _ _ _ _ _ _ _ _ "accessToken" H6) by discriminate.
    rewrite (pair_assigned_frame _ _ _ _ _ _ _ _ "accessToken" H5) by discriminate.
    subst o4. now rewrite Ha.
  - rewrite (pair_assigned_frame _ _ _ _ _ _ _ _ "refreshToken" H6) by discriminate.
    rewrite (pair_assigned_frame _ _ _ _ _ _ _ _ "refreshToken" H5) by discriminate.
    subst o4. reflexivity.
Qed.

(** X19. When the response carries a non-empty scope string, every
    element of the persisted [scopes] is a non-empty string without
    whitespace. *)
Theorem persisted_scopes_clean (ntd : json) (st st' : St) :
  update_config E ntd st = (Ok true, st') ->
  carries_scope ntd = true ->
  let k := resolved_key (config_data st) in
  exists p doc' l,
    config_file st = Some p /\
    on_disk (files st') p = Some doc' /\
    field doc' k "scopes" = Some (JList (map JStr l)) /\
    forall t, In t l -> t <> EmptyString /\ has_space t = false.
Proof.
  intros H Hc k.
  destruct (update_config_record E _ _ _ H)
    as (p & r & d0 & access & seconds & scopes & o4 & o5 & o6 &
        Hcf & -> & Hcd & Hd & Ho4 & Ha & Hs & Hsc & H5 & H6).
  fold k in Hd, H5, Ho4, Hsc.
  unfold carries_scope, top in Hc. unfold scopes_assigned, dict_get in Hsc.
  destruct (dict_lookup "scope" r) as [sc|]; [|discriminate].
  rewrite Hc in Hsc. destruct Hsc as (s & _ & ->).
  exists p, (JDict (dict_set k (JDict o6) d0)), (split_ws EmptyString s).
  split; [exact Hcf|]. split; [exact Hd|]. split.
  - rewrite field_after_merge.
    rewrite (pair_assigned_frame _ _ _ _ _ _ _ _ "scopes" H6) by discriminate.
    rewrite (pair_assigned_frame _ _ _ _ _ _ _ _ "scopes" H5) by discriminate.
    subst o4. apply dict_lookup_set_eq.
  - intros t Ht. now apply (split_ws_tokens s EmptyString t).
Qed.

End MergeProperties.

Section RoundTrip.
Variable E : Env.

Lemma probe_after_set (keys : list string) (d o : dict) (k : string) :
  first_key_in keys (JDict d) = Ok (Some k) ->
  dict_lookup "refreshToken" o <> None ->
  probe keys (JDict (dict_set k (JDict o) d)) = Ok (Some (JDict o)).
Proof.
  intros Hfirst Ho.
  assert (Hmem : dict_mem "refreshToken" o = true).
  { unfold dict_mem. destruct (dict_lookup "refreshToken" o); congruence. }
  induction keys as [|key rest IH]; simpl in *; [discriminate|].
  unfold dict_mem in Hfirst |- *.
  destruct (dict_lookup key d) as [x|] eqn:Hl; simpl in Hfirst.
  - injection Hfirst as <-. rewrite ?dict_lookup_set_eq. simpl.
    rewrite ?dict_lookup_set_eq. simpl. unfold dict_mem.
    destruct (dict_lookup "refreshToken" o); [reflexivity|congruence].
  - assert (Hne : k <> key).
    { intros ->. apply first_key_in_some in Hfirst. simpl in Hfirst.
      unfold dict_mem in Hfirst. rewrite Hl in Hfirst. discriminate. }
    rewrite (dict_lookup_set_neq _ _ _ _ Hne), Hl. simpl. now apply IH.
Qed.

Lemma on_disk_file (f : fs) (p : path) (d : json) :
  on_disk f p = Some d -> f p = Some (File (FJson d)).
Proof.
  unfold on_disk. destruct (f p) as [[|[x|]]|]; try discriminate.
  now intros [= ->].
Qed.

(** The record a successful update leaves on disk, as extraction sees
    it. *)
Lemma persisted_record (ntd : json) (st st' : St) :
  update_config E ntd st = (Ok true, st') ->
  let k := resolved_key (config_data st) in
  exists p r doc' o' seconds,
    config_file st = Some p /\
    ntd = JDict r /\
    on_disk (files st') p = Some doc' /\
    get_oauth_config doc' = Ok (Some (JDict o')) /\
    top doc' k = Some (JDict o') /\
    dict_lookup "accessToken" o' = dict_lookup "access_token" r /\
    py_int (dict_get r "expires_in" (JInt 3600)) = Ok seconds /\
    dict_lookup "expiresAt" o' =
      Some (JInt (clock E (ticks st) + seconds * 1000)).
Proof.
  intros H k.
  destruct (update_config_record E _ _ _ H)
    as (p & r & d0 & access & seconds & scopes & o4 & o5 & o6 &
        Hcf & -> & Hcd & Hd & Ho4 & Ha & Hs & Hsc & H5 & H6).
  fold k in Hd, H5, Ho4, Hsc.
  exists p, r, (JDict (dict_set k (JDict o6) d0)), o6, seconds.
  split; [exact Hcf|]. split; [reflexivity|]. split; [exact Hd|].
  assert (Hrt : dict_lookup "refreshToken" o6 <> None).
  { rewrite (pair_assigned_frame _ _ _ _ _ _ _ _ "refreshToken" H6) by discriminate.
    rewrite (pair_assigned_frame _ _ _ _ _ _ _ _ "refreshToken" H5) by discriminate.
    subst o4. rewrite !dict_lookup_set_neq by discriminate.
    rewrite dict_lookup_set_eq. discriminate. }
  split.
  { unfold get_oauth_config.
    assert (Htruthy : py_truthy (JDict (dict_set k (JDict o6) d0)) = true).
    { simpl. destruct d0 as [|[k' v'] r0]; simpl; [reflexivity|].
      destruct (String.eqb k k'); reflexivity. }
    rewrite Htruthy. cbn [negb].
    destruct (first_key_in oauth_keys (JDict d0)) as [[key|]|e] eqn:Hfirst.
    + assert (k = key).
      { unfold k, resolved_key. rewrite Hcd, Hfirst. reflexivity. }
      subst key. now apply probe_after_set.
    + assert (Hk : k = "claudeAiOauth").
      { unfold k, resolved_key. rewrite Hcd, Hfirst. reflexivity. }
      rewrite Hk. unfold oauth_keys. cbn [probe py_contains rbind].
      unfold dict_mem at 1. rewrite dict_lookup_set_eq.
      cbn [py_getitem rbind]. rewrite dict_lookup_set_eq.
      cbn [py_contains rbind]. unfold dict_mem.
      destruct (dict_lookup "refreshToken" o6); [reflexivity|congruence].
    + simpl in Hfirst. unfold oauth_keys in Hfirst. simpl in Hfirst.
      destruct (dict_mem "claudeAiOauth" d0); [discriminate|].
      destruct (dict_mem "oauthAccount" d0); [discriminate|].
      destruct (dict_mem "oauth" d0); discriminate. }
  split; [simpl; apply dict_lookup_set_eq|].
  split.
  { rewrite (pair_assigned_frame _ _ _ _ _ _ _ _ "accessToken" H6) by discriminate.
    rewrite (pair_assigned_frame _ _ _ _ _ _ _ _ "accessToken" H5) by discriminate.
    subst o4. rewrite !dict_lookup_set_neq by discriminate.
    rewrite dict_lookup_set_eq. now rewrite Ha. }
  split; [exact Hs|].
  rewrite (pair_assigned_frame _ _ _ _ _ _ _ _ "expiresAt" H6) by discriminate.
  rewrite (pair_assigned_frame _ _ _ _ _ _ _ _ "expiresAt" H5) by discriminate.
  subst o4. rewrite !dict_lookup_set_neq by discriminate.
  apply dict_lookup_set_eq.
Qed.

(** X20. After a successful [update_config], [get_oauth_config] on the
    persisted document returns the record that was just updated, the one
    holding the response's [access_token]: whatever key extraction used
    before, the next run reads the new tokens. *)
Theorem update_then_extract (ntd : json) (st st' : St) :
  update_config E ntd st = (Ok true, st') ->
  let k := resolved_key (config_data st) in
  exists p doc' o',
    config_file st = Some p /\
    on_disk (files st') p = Some doc' /\
    get_oauth_config doc' = Ok (Some (JDict o')) /\
    top doc' k = Some (JDict o') /\
    dict_lookup "accessToken" o' = top ntd "access_token".
Proof.
  intros H k.
  destruct (persisted_record ntd st st' H)
    as (p & r & doc' & o' & seconds & Hcf & -> & Hd & Hg & Ht & Ha & _).
  exists p, doc', o'. auto.
Qed.

(** X21. After a successful update whose response gave an integer
    [expires_in] (or none, which counts as 3600), an unforced run started
    on the files the update left exits with status 0, posts nothing and
    writes nothing, provided that in its world [E2] the search finds the
    same file and the file is readable, and that the persisted
    [expiresAt] (the update's clock reading plus [expires_in * 1000]) is
    positive, not earlier than the first clock reading of the new run,
    and accepted by [datetime.fromtimestamp]. *)
Theorem rerun_after_refresh_is_noop (E2 : Env) (ntd : json) (st st' : St)
    (p : path) (seconds : Z) :
  update_config E ntd st = (Ok true, st') ->
  config_file st = Some p ->
  py_get ntd "expires_in" (JInt 3600) = Ok (JInt seconds) ->
  find_claude_config E2 (files st') = Ok (Some p) ->
  readable E2 p = true ->
  0 < clock E (ticks st) + seconds * 1000 ->
  clock E2 0 <= clock E (ticks st) + seconds * 1000 ->
  fromtimestamp_ok E2 (clock E (ticks st) + seconds * 1000) = true ->
  fst (main E2 false (files st')) = 0 /\
  trace (snd (main E2 false (files st'))) = [] /\
  files (snd (main E2 false (files st'))) = files st'.
Proof.
  intros H Hp Hsec Hfind Hread Hpos Hclock Hok.
  destruct (persisted_record ntd st st' H)
    as (p' & r & doc' & o' & secs & Hcf & -> & Hd & Hg & _ & _ & Hs & He).
  rewrite Hp in Hcf. injection Hcf as <-.
  simpl in Hsec. injection Hsec as Hsec. rewrite Hsec in Hs. simpl in Hs.
  injection Hs as <-.
  assert (Hl : loads E2 (files st') p doc').
  { repeat split; auto. now apply on_disk_file. }
  unfold main. rewrite (run_loaded E2 false (files st') p doc' o' Hl Hg).
  cbv zeta. unfold dict_get. rewrite He. simpl py_int. cbv iota.
  replace (0 <? clock E (ticks st) + seconds * 1000) with true
    by (symmetry; apply Z.ltb_lt; lia).
  rewrite Hok.
  replace (clock E (ticks st) + seconds * 1000 <? clock E2 0) with false
    by (symmetry; apply Z.ltb_ge; lia).
  simpl. auto.
Qed.

End RoundTrip.

Import Cases.

Section MoreWitnesses.

Lemma unloadable_config_fails_witness :
  (exists st, load_config env_e2e (init disk_garbage) = (Ok false, st)) /\
  fst (main env_e2e false disk_garbage) = 1 /\
  trace (snd (main env_e2e false disk_garbage)) = [] /\
  files (snd (main env_e2e false disk_garbage)) = disk_garbage.
Proof.
  apply (unloadable_config_fails env_e2e false disk_garbage).
  right. exists creds. split; [reflexivity|]. right. reflexivity.
Defined.

Lemma search_error_escapes_witness :
  (load_config env_stat_denied (init (disk doc_e2e))
     = (Raise OSError, init (disk doc_e2e)) /\
   run env_stat_denied true (init (disk doc_e2e))
     = (Raise OSError, init (disk doc_e2e)) /\
   fst (main env_stat_denied true (disk doc_e2e)) = 1 /\
   trace (snd (main env_stat_denied true (disk doc_e2e))) = [] /\
   files (snd (main env_stat_denied true (disk doc_e2e))) = disk doc_e2e) /\
  (load_config env_no_home (init (disk doc_e2e))
     = (Raise RuntimeError, init (disk doc_e2e)) /\
   run env_no_home false (init (disk doc_e2e))
     = (Raise RuntimeError, init (disk doc_e2e)) /\
   fst (main env_no_home false (disk doc_e2e)) = 1 /\
   trace (snd (main env_no_home false (disk doc_e2e))) = [] /\
   files (snd (main env_no_home false (disk doc_e2e))) = disk doc_e2e).
Proof.
  split.
  - apply (search_error_escapes env_stat_denied true (disk doc_e2e) OSError).
    reflexivity.
  - apply (search_error_escapes env_no_home false (disk doc_e2e) RuntimeError).
    reflexivity.
Defined.

Lemma extraction_priority_witness :
  exists before k after,
    oauth_keys = (before ++ k :: after)%list /\
    top doc_two_keys k =
      Some (JDict [("refreshToken", JStr "R1"); ("expiresAt", JInt 1000)]) /\
    py_contains "refreshToken"
      (JDict [("refreshToken", JStr "R1"); ("expiresAt", JInt 1000)]) = Ok true /\
    forall k', In k' before ->
      top doc_two_keys k' = None \/
      exists oc', top doc_two_keys k' = Some oc' /\
                  py_contains "refreshToken" oc' = Ok false.
Proof.
  apply (extraction_priority doc_two_keys). reflexivity.
Defined.

Lemma no_oauth_section_fails_witness :
  get_oauth_config doc_no_token = Ok None /\
  fst (main env_e2e true (disk doc_no_token)) = 1 /\
  trace (snd (main env_e2e true (disk doc_no_token))) = [] /\
  files (snd (main env_e2e true (disk doc_no_token))) = disk doc_no_token.
Proof.
  apply (no_oauth_section_fails env_e2e true (disk doc_no_token) creds).
  - repeat split; reflexivity.
  - intros k [<-|[<-|[<-|[]]]].
    + right. eexists. split; reflexivity.
    + left. reflexivity.
    + left. reflexivity.
Defined.

Lemma scalar_section_crashes_witness :
  get_oauth_config doc_scalar = Raise TypeError /\
  fst (main env_e2e false (disk doc_scalar)) = 1 /\
  trace (snd (main env_e2e false (disk doc_scalar))) = [] /\
  files (snd (main env_e2e false (disk doc_scalar))) = disk doc_scalar.
Proof.
  apply (scalar_section_crashes env_e2e false (disk doc_scalar) creds _
           [] ["oauthAccount"; "oauth"] "claudeAiOauth" JNull).
  - repeat split; reflexivity.
  - reflexivity.
  - intros k' [].
  - reflexivity.
  - left. reflexivity.
Defined.

Lemma malformed_record_crashes_witness :
  (exists e st,
     run env_e2e false (init (disk doc_text_expiry)) = (Raise e, st) /\
     trace st = [] /\ files st = disk doc_text_expiry) /\
  fst (main env_e2e false (disk doc_text_expiry)) = 1.
Proof.
  apply (malformed_record_crashes env_e2e false (disk doc_text_expiry) creds
           doc_text_expiry
           (JDict [("refreshToken", JStr "R1"); ("expiresAt", JStr "2025-01-01")])).
  - repeat split; reflexivity.
  - reflexivity.
  - eexists. split; reflexivity.
Defined.

Lemma failed_refresh_writes_nothing_witness :
  files (snd (main (env all_writable unauthorized) false (disk doc_e2e)))
    = disk doc_e2e /\
  file_writes (trace (snd (main (env all_writable unauthorized) false
                             (disk doc_e2e)))) = 0%nat /\
  (trace (snd (main (env all_writable unauthorized) false (disk doc_e2e))) = [] \/
   exists tok,
     trace (snd (main (env all_writable unauthorized) false (disk doc_e2e)))
       = [EvHttpPost tok] /\
     fst (main (env all_writable unauthorized) false (disk doc_e2e)) = 1).
Proof.
  apply (failed_refresh_writes_nothing (env all_writable unauthorized) false
           (disk doc_e2e)).
  intros tok. simpl. intros H. discriminate H.
Defined.

Lemma malformed_response_rejected_witness :
  exists st',
    update_config env_e2e response_no_access (loaded_state doc_e2e)
      = (Ok false, st') /\
    files st' = files (loaded_state doc_e2e) /\
    trace st' = trace (loaded_state doc_e2e).
Proof.
  apply (malformed_response_rejected env_e2e response_no_access
           (loaded_state doc_e2e)).
  left. reflexivity.
Defined.

Lemma posted_token_is_stored_token_witness :
  exists p doc oc,
    loads env_e2e (disk doc_e2e) p doc /\
    get_oauth_config doc = Ok (Some oc) /\
    py_get oc "refreshToken" JNull = Ok (JStr "R1") /\
    py_truthy (JStr "R1") = true.
Proof.
  apply (posted_token_is_stored_token env_e2e false (disk doc_e2e) (JStr "R1")).
  vm_compute. left. reflexivity.
Defined.

Lemma other_files_untouched_witness :
  files (snd (main env_e2e false (disk doc_e2e))) notes = disk doc_e2e notes.
Proof.
  apply (other_files_untouched env_e2e false (disk doc_e2e) notes).
  intros p b Hp Hb. vm_compute in Hp. injection Hp as <-.
  vm_compute in Hb. injection Hb as <-. split; reflexivity.
Defined.

Lemma exception_leaves_all_or_nothing_witness :
  fst (main (env all_writable (answer response_long_lived)) false (disk doc_e2e)) = 1 /\
  ((trace (snd (run (env all_writable (answer response_long_lived)) false
                  (init (disk doc_e2e)))) = [] /\
    files (snd (run (env all_writable (answer response_long_lived)) false
                  (init (disk doc_e2e)))) = disk doc_e2e) \/
   exists p b tok doc,
     find_claude_config (env all_writable (answer response_long_lived))
       (disk doc_e2e) = Ok (Some p) /\
     with_suffix p ".json.backup" = Ok b /\
     trace (snd (run (env all_writable (answer response_long_lived)) false
                   (init (disk doc_e2e))))
       = [EvHttpPost tok; EvWrite b doc; EvWrite p doc] /\
     on_disk (files (snd (run (env all_writable (answer response_long_lived)) false
                            (init (disk doc_e2e))))) p = Some doc /\
     on_disk (files (snd (run (env all_writable (answer response_long_lived)) false
                            (init (disk doc_e2e))))) b = Some doc).
Proof.
  apply (exception_leaves_all_or_nothing
           (env all_writable (answer response_long_lived)) false (disk doc_e2e)
           ValueError).
  reflexivity.
Defined.

Lemma primary_failure_keeps_backup_witness :
  exists st',
    update_config (env primary_unwritable (answer response_e2e)) response_e2e
      (loaded_state doc_e2e) = (Ok false, st') /\
    on_disk (files st') creds_backup =
      Some (config_data
              (snd (merge (env primary_unwritable (answer response_e2e))
                      response_e2e (loaded_state doc_e2e)))) /\
    files st' creds = files (loaded_state doc_e2e) creds /\
    trace st' =
      (trace (loaded_state doc_e2e) ++
       [EvWrite creds_backup
          (config_data
             (snd (merge (env primary_unwritable (answer response_e2e))
                     response_e2e (loaded_state doc_e2e))));
        EvWriteFail creds])%list.
Proof.
  apply (primary_failure_keeps_backup
           (env primary_unwritable (answer response_e2e)) response_e2e
           (loaded_state doc_e2e)
           (snd (merge (env primary_unwritable (answer response_e2e))
                   response_e2e (loaded_state doc_e2e)))
           creds creds_backup); try reflexivity.
  - discriminate.
  - right. reflexivity.
Defined.

Lemma backup_path_fresh_witness :
  exists b,
    with_suffix (mkPath "/home/u" ".claude.json") ".json.backup" = Ok b /\
    parent b = "/home/u" /\
    name b = ".claude.json.backup" /\
    b <> mkPath "/w/.claude" ".credentials.json".
Proof.
  apply (backup_path_fresh env_e2e (mkPath "/home/u" ".claude.json")
           (mkPath "/w/.claude" ".credentials.json")).
  - simpl. auto.
  - simpl. auto.
Defined.

Lemma forced_run_posts_once_witness :
  http_calls (trace (snd (main env_e2e true
                            (disk (doc_expiring (now0 + 1000000)))))) = 1%nat.
Proof.
  apply (forced_run_posts_once env_e2e (disk (doc_expiring (now0 + 1000000)))
           creds (doc_expiring (now0 + 1000000))
           [("refreshToken", JStr "R1"); ("expiresAt", JInt (now0 + 1000000))]
           (JStr "R1")); try reflexivity.
  - repeat split; reflexivity.
  - simpl. eexists. split; [reflexivity|]. intros _. reflexivity.
Defined.

Lemma unexpired_run_is_noop_witness :
  main env_e2e false (disk (doc_expiring now0)) =
    (0, mkSt (Some creds) (doc_expiring now0) (disk (doc_expiring now0)) 2 []).
Proof.
  apply (unexpired_run_is_noop env_e2e (disk (doc_expiring now0)) creds
           (doc_expiring now0)
           [("refreshToken", JStr "R1"); ("expiresAt", JInt now0)] now0);
    try reflexivity; try (repeat split; reflexivity);
    try (vm_compute; discriminate).
Defined.

Lemma key_order_kept_witness :
  exists p d0 d' extra,
    config_file (loaded_state doc_rich) = Some p /\
    config_data (loaded_state doc_rich) = JDict d0 /\
    on_disk (files (snd (update_config env_e2e response_rich (loaded_state doc_rich)))) p
      = Some (JDict d') /\
    map fst d' = map fst d0 /\
    map fst (record (JDict d') "claudeAiOauth") =
      (map fst (record doc_rich "claudeAiOauth") ++ extra)%list.
Proof.
  apply (key_order_kept env_e2e response_rich (loaded_state doc_rich)
           (snd (update_config env_e2e response_rich (loaded_state doc_rich)))).
  - reflexivity.
  - discriminate.
Defined.

Lemma default_key_created_witness :
  exists p d0 r o',
    config_file (loaded_state doc_plain) = Some p /\
    config_data (loaded_state doc_plain) = JDict d0 /\
    response_e2e = JDict r /\
    on_disk (files (snd (update_config env_e2e response_e2e (loaded_state doc_plain)))) p
      = Some (JDict (d0 ++ [("claudeAiOauth", JDict o')])) /\
    dict_lookup "accessToken" o' = dict_lookup "access_token" r /\
    dict_lookup "refreshToken" o' = Some (dict_get r "refresh_token" JNull).
Proof.
  apply (default_key_created env_e2e response_e2e (loaded_state doc_plain)
           (snd (update_config env_e2e response_e2e (loaded_state doc_plain)))).
  - reflexivity.
  - intros k [<-|[<-|[<-|[]]]]; reflexivity.
Defined.

Lemma persisted_scopes_clean_witness :
  exists p doc' l,
    config_file (loaded_state doc_scoped) = Some p /\
    on_disk (files (snd (update_config env_e2e (response_scope " a  b ")
                           (loaded_state doc_scoped)))) p = Some doc' /\
    field doc' "oauthAccount" "scopes" = Some (JList (map JStr l)) /\
    forall t, In t l -> t <> EmptyString /\ has_space t = false.
Proof.
  apply (persisted_scopes_clean env_e2e (response_scope " a  b ")
           (loaded_state doc_scoped)
           (snd (update_config env_e2e (response_scope " a  b ")
                   (loaded_state doc_scoped)))); reflexivity.
Defined.

Lemma update_then_extract_witness :
  exists p doc' o',
    config_file (loaded_state doc_two_keys) = Some p /\
    on_disk (files (snd (update_config env_e2e response_rotated
                           (loaded_state doc_two_keys)))) p = Some doc' /\
    get_oauth_config doc' = Ok (Some (JDict o')) /\
    top doc' "claudeAiOauth" = Some (JDict o') /\
    dict_lookup "accessToken" o' = top response_rotated "access_token".
Proof.
  apply (update_then_extract env_e2e response_rotated (loaded_state doc_two_keys)
           (snd (update_config env_e2e response_rotated (loaded_state doc_two_keys))));
    reflexivity.
Defined.

Lemma rerun_after_refresh_is_noop_witness :
  fst (main env_e2e false
         (files (snd (update_config env_e2e response_e2e (loaded_state doc_e2e))))) = 0 /\
  trace (snd (main env_e2e false
         (files (snd (update_config env_e2e response_e2e (loaded_state doc_e2e)))))) = [] /\
  files (snd (main env_e2e false
         (files (snd (update_config env_e2e response_e2e (loaded_state doc_e2e))))))
    = files (snd (update_config env_e2e response_e2e (loaded_state doc_e2e))).
Proof.
  apply (rerun_after_refresh_is_noop env_e2e env_e2e response_e2e
           (loaded_state doc_e2e)
           (snd (update_config env_e2e response_e2e (loaded_state doc_e2e)))
           creds 3600); try reflexivity.
  vm_compute. discriminate.
Defined.

End MoreWitnesses.
